(** * aws-xray-yasdk-go: centralized sampling, AWS client hooks, response-writer fan-out

    A shallow embedding of
    - [xray/sampling/centralized_strategy.go] (module [Sampling]),
    - the aws-sdk-go-v2 request hooks of [xrayaws-v2] (module [XrayawsV2]),
    - the aws-sdk-go request hooks of [xrayaws] (module [Xrayaws]),
    - the generated [xrayhttp/wrap.go] (module [Xrayhttp]),
    followed by the properties proved about them. *)

From Stdlib Require Import ZArith QArith List Lia Permutation Bool.
From stdpp Require Import base option list gmap strings sorting.
From Equations Require Import Equations.
Import ListNotations.

Local Open Scope string_scope.
Local Open Scope list_scope.
Local Open Scope Z_scope.

(** ** Pointer-valued fields of the AWS SDK: [nil] is [None]. *)
Module aws.

Definition StringValue (p : option string) : string := default "" p.
Definition Int64Value (p : option Z) : Z := default 0 p.
Definition Float64Value (p : option Q) : Q := default (0 # 1)%Q p.

End aws.

(** ** xray/sampling/centralized_strategy.go *)
Module Sampling.

(** [time.Time], as nanoseconds relative to the Unix epoch. *)
Definition time := Z.

(** [time.Time{}], January 1 of year 1, 00:00:00 UTC. *)
Definition zeroTime : time := -62135596800 * 1000000000.

(** [t.After(u)]. *)
Definition After (t u : time) : bool := u <? t.

(** [aws.TimeValue]. *)
Definition TimeValue (p : option time) : time := default zeroTime p.

Definition defaultInterval : Z := 10.
Definition manifestTTL : Z := 3600. (* Seconds *)

Definition error := string.

(** [xraySvc.SamplingRule]: every field is a pointer. *)
Record samplingRule := mkSamplingRule {
  FixedRate : option Q;
  HTTPMethod : option string;
  Host : option string;
  Priority : option Z;
  ReservoirSize : option Z;
  ResourceARN : option string;
  RuleARN : option string;
  RuleName : option string;
  ServiceName : option string;
  ServiceType : option string;
  URLPath : option string;
  Version : option Z
}.

(** [xraySvc.SamplingRuleRecord]; [SamplingRule] is a pointer. *)
Record samplingRuleRecord := mkSamplingRuleRecord {
  CreatedAt : option time;
  ModifiedAt : option time;
  SamplingRule : option samplingRule
}.

(** One page handed to the callback of [GetSamplingRulesPagesWithContext]. *)
Record getSamplingRulesOutput := mkGetSamplingRulesOutput {
  NextToken : option string;
  SamplingRuleRecords : list samplingRuleRecord
}.

Record samplingStatisticsDocument := mkSamplingStatisticsDocument {
  BorrowCount : Z;
  ClientID : string;
  RequestCount : Z;
  StatRuleName : string;
  SampledCount : Z;
  Timestamp : time
}.

Record getSamplingTargetsInput := mkGetSamplingTargetsInput {
  SamplingStatisticsDocuments : list samplingStatisticsDocument
}.

Record samplingTargetDocument := mkSamplingTargetDocument {
  TargetFixedRate : option Q;
  Interval : option Z;
  ReservoirQuota : option Z;
  ReservoirQuotaTTL : option time;
  TargetRuleName : option string
}.

Record unprocessedStatistics := mkUnprocessedStatistics {
  ErrorCode : option string;
  Message : option string;
  UnprocessedRuleName : option string
}.

Record getSamplingTargetsOutput := mkGetSamplingTargetsOutput {
  LastRuleModification : option time;
  SamplingTargetDocuments : list samplingTargetDocument;
  UnprocessedStatistics : list unprocessedStatistics
}.

(** The [xrayAPI] interface.  A value of [X] is the client together with
    whatever the service behind it remembers.

    [GetSamplingRulesPagesWithContext] hands pages to its callback until the
    callback answers [false] or the pages are exhausted, then returns its
    error.  The callback of [refreshRule] always answers [true], so one call
    is described by the pages it delivers, in order, and the error it
    returns ([None] is [nil]).

    [GetSamplingTargetsWithContext] returns a response or an error; the
    documents of a response are not [nil]. *)
Class xrayAPI (X : Type) := {
  GetSamplingRulesPagesWithContext :
    X -> X * list getSamplingRulesOutput * option error;
  GetSamplingTargetsWithContext :
    X -> getSamplingTargetsInput -> X * (getSamplingTargetsOutput + error)
}.

(** [centralizedQuota] is declared next to [centralizedRule], outside this
    file; these are the fields that [refreshRule] and the tests of this file
    read and write. *)
Record centralizedQuota := mkQuota {
  fixedRate : Q;
  quota : Z;
  ttl : time;
  requests : Z;
  borrowed : Z;
  sampled : Z
}.

(** The snapshot returned by [centralizedQuota.Stats]. *)
Record quotaStats := mkQuotaStats {
  stat_requests : Z;
  stat_borrowed : Z;
  stat_sampled : Z
}.

(** [*centralizedQuota]: an index into the store of quota objects, [None]
    for [nil].  Two pointers are the same object iff they are equal. *)
Definition quotaPtr := option nat.

Record centralizedRule := mkRule {
  rule_quota : quotaPtr;
  ruleName : string;
  priority : Z;
  host : string;
  urlPath : string;
  httpMethod : string;
  serviceName : string;
  serviceType : string
}.

Record centralizedManifest := mkManifest {
  Rules : list centralizedRule;
  Quotas : gmap string quotaPtr;
  RefreshedAt : time
}.

(** [*centralizedManifest]. *)
Definition manifestPtr := option nat.

(** The objects the strategy points into. Allocation appends, so an object
    never moves and a new object never aliases an old one. *)
Record Store := mkStore {
  quotaObjs : list centralizedQuota;
  manifestObjs : list centralizedManifest
}.

Definition loadQuota (h : Store) (p : quotaPtr) : option centralizedQuota :=
  p ≫= λ i, quotaObjs h !! i.

Definition loadManifest (h : Store) (p : manifestPtr) : option centralizedManifest :=
  p ≫= λ i, manifestObjs h !! i.

Definition storeQuota (h : Store) (i : nat) (q : centralizedQuota) : Store :=
  mkStore (<[i := q]> (quotaObjs h)) (manifestObjs h).

(** [&centralizedQuota{...}]; an allocation does not panic. *)
Definition newQuota (q : centralizedQuota) (h : Store) : option quotaPtr * Store :=
  (Some (Some (length (quotaObjs h))), mkStore (quotaObjs h ++ [q]) (manifestObjs h)).

(** [&centralizedManifest{...}] *)
Definition newManifest (h : Store) (m : centralizedManifest) : manifestPtr * Store :=
  (Some (length (manifestObjs h)), mkStore (quotaObjs h) (manifestObjs h ++ [m])).

(** The fields of [CentralizedStrategy] that the modelled methods touch.
    [started] records that [startOnce] has fired. *)
Record CentralizedStrategy (X : Type) := mkStrategy {
  xray : X;
  clientID : string;
  started : bool;
  manifest : manifestPtr
}.
Arguments mkStrategy {X} _ _ _ _.
Arguments xray {X} _.
Arguments clientID {X} _.
Arguments started {X} _.
Arguments manifest {X} _.

Definition getManifest {X} (s : CentralizedStrategy X) : manifestPtr := manifest s.

Definition setManifest {X} (s : CentralizedStrategy X) (m : manifestPtr) : CentralizedStrategy X :=
  mkStrategy (xray s) (clientID s) (started s) m.

Definition setXray {X} (s : CentralizedStrategy X) (x : X) : CentralizedStrategy X :=
  mkStrategy x (clientID s) (started s) (manifest s).

(** What [NewCentralizedStrategy] returns once the fallback, the client
    [x] and the random client id [id] are made: a strategy that has not
    started its pollers, over an empty manifest with the zero
    [RefreshedAt]. *)
Definition emptyManifest : centralizedManifest := mkManifest [] ∅ zeroTime.

Definition NewCentralizedStrategy {X} (x : X) (id : string) : CentralizedStrategy X * Store :=
  let '(p, h) := newManifest (mkStore [] []) emptyManifest in
  (mkStrategy x id false p, h).

(** *** ShouldTrace *)
Section ShouldTrace.

(** [Request], [Decision], [centralizedRule.Match], [centralizedRule.Sample]
    and [LocalizedStrategy.ShouldTrace] live in other files of the package.
    [Sample] works on the rule's quota object, the fallback on its own
    state [L]. *)
Context {Request Decision L : Type}.
Variable Match : centralizedRule -> Request -> bool.
Variable Sample : centralizedRule -> Store -> Decision * Store.
Variable fallbackShouldTrace : L -> Request -> Decision * L.

(** The [for _, r := range manifest.Rules] loop: the first matching rule
    samples; [None] when the loop falls through. *)
Fixpoint firstMatch (rules : list centralizedRule) (req : Request) : option centralizedRule :=
  match rules with
  | [] => None
  | r :: rest => if Match r req then Some r else firstMatch rest req
  end.

Definition ShouldTrace {X} (s : CentralizedStrategy X) (fb : L) (h : Store) (req : Request)
  : Decision * CentralizedStrategy X * L * Store :=
  let s := mkStrategy (xray s) (clientID s) true (manifest s) in
  match getManifest s with
  | None =>
      let '(d, fb') := fallbackShouldTrace fb req in (d, s, fb', h)
  | Some _ =>
      match loadManifest h (getManifest s) ≫= λ m, firstMatch (Rules m) req with
      | Some r => let '(d, h') := Sample r h in (d, s, fb, h')
      | None => let '(d, fb') := fallbackShouldTrace fb req in (d, s, fb', h)
      end
  end.

End ShouldTrace.

(** *** Store-passing with panics

    A computation over the store either yields a value or panics (a nil
    dereference); both [refreshRule] and [refreshQuota] recover from a panic
    in a deferred function, so what was written before the panic stays. *)
Definition M (A : Type) : Type := Store -> option A * Store.

#[global] Instance M_ret : MRet M := λ A a h, (Some a, h).
#[global] Instance M_bind : MBind M := λ A B f c h,
  match c h with
  | (Some a, h') => f a h'
  | (None, h') => (None, h')
  end.

Definition panic {A} : M A := λ h, (None, h).

(** [for _, x := range xs { acc = body(acc, x) }] *)
Fixpoint forRange {A B} (body : B -> A -> M B) (xs : list A) (acc : B) : M B :=
  match xs with
  | [] => mret acc
  | x :: rest => acc' ← body acc x; forRange body rest acc'
  end.

(** *** refreshRule *)
Section RefreshRule.

(** [centralizedRuleSlice.Less], declared outside this file. *)
Variable Less : centralizedRule -> centralizedRule -> bool.

Fixpoint insertStable (x : centralizedRule) (l : list centralizedRule) : list centralizedRule :=
  match l with
  | [] => [x]
  | y :: rest => if Less y x then y :: insertStable x rest else x :: y :: rest
  end.

(** [sort.Stable(centralizedRuleSlice(rules))]: a rule is moved past the
    rules after it that are less than it, and past no other. *)
Definition sortStable (rules : list centralizedRule) : list centralizedRule :=
  foldr insertStable [] rules.

(** The quota object a rule refresh creates for a rule it has no quota for:
    only [fixedRate] is set. *)
Definition borrowedQuota (r : samplingRule) : centralizedQuota :=
  mkQuota (aws.Float64Value (FixedRate r)) 0 zeroTime 0 0 0.

(** The rule built from a record and the quota chosen for it. *)
Definition ruleOf (r : samplingRule) (q : quotaPtr) : centralizedRule :=
  mkRule q
    (aws.StringValue (RuleName r))
    (aws.Int64Value (Priority r))
    (aws.StringValue (Host r))
    (aws.StringValue (URLPath r))
    (aws.StringValue (HTTPMethod r))
    (aws.StringValue (ServiceName r))
    (aws.StringValue (ServiceType r)).

(** The quota for a returned rule: the one the manifest in force has under
    that name, else a new object. *)
Definition quotaFor (manifest : centralizedManifest) (r : samplingRule) : M quotaPtr :=
  match Quotas manifest !! aws.StringValue (RuleName r) with
  | Some q => mret q
  | None => newQuota (borrowedQuota r)
  end.

(** One turn of [for _, record := range out.SamplingRuleRecords]. *)
Definition addRecord (manifest : centralizedManifest)
    (acc : list centralizedRule * gmap string quotaPtr) (record : samplingRuleRecord)
  : M (list centralizedRule * gmap string quotaPtr) :=
  match SamplingRule record with
  | None => panic
  | Some r =>
      q ← quotaFor manifest r;
      mret (acc.1 ++ [ruleOf r q], <[aws.StringValue (RuleName r) := q]> acc.2)
  end.

(** The callback passed to [GetSamplingRulesPagesWithContext]. *)
Definition addPage (manifest : centralizedManifest)
    (acc : list centralizedRule * gmap string quotaPtr) (out : getSamplingRulesOutput)
  : M (list centralizedRule * gmap string quotaPtr) :=
  forRange (addRecord manifest) (SamplingRuleRecords out) acc.

(** How a run of [refreshRule] ended. *)
Inductive refreshRuleExit :=
  | RulesRefreshed
  | RulesFailed (err : error)
  | RulesPanicked.

Definition refreshRule `{xrayAPI X} (now : time) (s : CentralizedStrategy X) (h : Store)
  : refreshRuleExit * CentralizedStrategy X * Store :=
  match loadManifest h (getManifest s) with
  | None => (RulesPanicked, s, h)
  | Some manifest =>
      let '(x, pages, err) := GetSamplingRulesPagesWithContext (xray s) in
      let s := setXray s x in
      match forRange (addPage manifest) pages ([], ∅) h with
      | (None, h) => (RulesPanicked, s, h)
      | (Some (rules, quotas), h) =>
          match err with
          | Some e => (RulesFailed e, s, h)
          | None =>
              let '(p, h) := newManifest h (mkManifest (sortStable rules) quotas now) in
              (RulesRefreshed, setManifest s p, h)
          end
      end
  end.

End RefreshRule.

(** *** refreshQuota *)
Section RefreshQuota.

(** [centralizedQuota.Stats] and [centralizedQuota.Update] are declared
    outside this file; each works on the one quota object it is called on. *)
Variable Stats : centralizedQuota -> quotaStats * centralizedQuota.
Variable Update : centralizedQuota -> samplingTargetDocument -> centralizedQuota.

(** maximum number of targets of GetSamplingTargets API *)
Definition maxTargets : nat := 25.

(** [r.quota.Stats()] *)
Definition callStats (p : quotaPtr) : M quotaStats := λ h,
  match p with
  | Some i =>
      match quotaObjs h !! i with
      | Some q => let '(st, q') := Stats q in (Some st, storeQuota h i q')
      | None => (None, h)
      end
  | None => (None, h)
  end.

(** [quota.Update(doc)] *)
Definition callUpdate (p : quotaPtr) (doc : samplingTargetDocument) : M unit := λ h,
  match p with
  | Some i =>
      match quotaObjs h !! i with
      | Some q => (Some tt, storeQuota h i (Update q doc))
      | None => (None, h)
      end
  | None => (None, h)
  end.

(** One turn of [for _, r := range manifest.Rules]. *)
Definition addStat (id : string) (now : time)
    (stats : list samplingStatisticsDocument) (r : centralizedRule)
  : M (list samplingStatisticsDocument) :=
  stat ← callStats (rule_quota r);
  mret (stats ++ [mkSamplingStatisticsDocument
                    (stat_borrowed stat) id (stat_requests stat)
                    (ruleName r) (stat_sampled stat) now]).

(** One turn of [for _, doc := range resp.SamplingTargetDocuments]. *)
Definition applyTarget (manifest : centralizedManifest)
    (needRefresh : bool) (doc : samplingTargetDocument) : M bool :=
  match Quotas manifest !! aws.StringValue (TargetRuleName doc) with
  | Some q => _ ← callUpdate q doc; mret needRefresh
  | None => mret true
  end.

(** [l := len(stats); if l > maxTargets { l = maxTargets }] *)
Definition batchLen (stats : list samplingStatisticsDocument) : nat :=
  if (maxTargets <? length stats)%nat then maxTargets else length stats.

(** One call of [GetSamplingTargetsWithContext]: what was sent and what
    came back. *)
Definition targetsCall : Type :=
  getSamplingTargetsInput * (getSamplingTargetsOutput + error).

(** How the [for len(stats) > 0] loop ended: [None] for a panic, else the
    final [needRefresh]; with it the client, the calls made and the store. *)
Definition batchesResult (X : Type) : Type :=
  option bool * X * list targetsCall * Store.

Equations? sendBatches {X} `{xrayAPI X} (manifest : centralizedManifest)
    (stats : list samplingStatisticsDocument)
    (x : X) (needRefresh : bool) (calls : list targetsCall) (h : Store)
  : batchesResult X by wf (length stats) lt :=
sendBatches manifest [] x needRefresh calls h := (Some needRefresh, x, calls, h);
sendBatches manifest (d :: ds) x needRefresh calls h
  with GetSamplingTargetsWithContext x
         (mkGetSamplingTargetsInput (take (batchLen (d :: ds)) (d :: ds))) := {
  | (x', inr err) :=
      sendBatches manifest (drop (batchLen (d :: ds)) (d :: ds)) x' needRefresh
        (calls ++ [(mkGetSamplingTargetsInput (take (batchLen (d :: ds)) (d :: ds)), inr err)]) h
  | (x', inl resp)
      with forRange (applyTarget manifest) (SamplingTargetDocuments resp) needRefresh h := {
      | (None, h') :=
          (None, x',
           calls ++ [(mkGetSamplingTargetsInput (take (batchLen (d :: ds)) (d :: ds)), inl resp)],
           h')
      | (Some needRefresh', h') :=
          sendBatches manifest (drop (batchLen (d :: ds)) (d :: ds)) x'
            (needRefresh' || After (TimeValue (LastRuleModification resp)) (RefreshedAt manifest))
            (calls ++ [(mkGetSamplingTargetsInput (take (batchLen (d :: ds)) (d :: ds)), inl resp)])
            h' } }.
Proof.
  all: unfold batchLen, maxTargets; rewrite length_drop; simpl length;
    destruct (Nat.ltb_spec 25 (S (length ds))); lia.
Qed.

(** What a run of [refreshQuota] leaves behind. [run_refresh] is the
    [go s.refreshRule()] at its end; [run_panicked] that the deferred
    [recover] caught a panic. *)
Record quotaRun (X : Type) := mkQuotaRun {
  run_strategy : CentralizedStrategy X;
  run_store : Store;
  run_calls : list targetsCall;
  run_refresh : bool;
  run_panicked : bool
}.
Arguments mkQuotaRun {X} _ _ _ _ _.
Arguments run_strategy {X} _.
Arguments run_store {X} _.
Arguments run_calls {X} _.
Arguments run_refresh {X} _.
Arguments run_panicked {X} _.

Definition refreshQuota {X} `{xrayAPI X} (now : time) (s : CentralizedStrategy X) (h : Store)
  : quotaRun X :=
  match loadManifest h (getManifest s) with
  | None => mkQuotaRun s h [] false true
  | Some manifest =>
      match forRange (addStat (clientID s) now) (Rules manifest) [] h with
      | (None, h) => mkQuotaRun s h [] false true
      | (Some stats, h) =>
          match sendBatches manifest stats (xray s) false [] h with
          | (None, x, calls, h) => mkQuotaRun (setXray s x) h calls false true
          | (Some needRefresh, x, calls, h) =>
              mkQuotaRun (setXray s x) h calls needRefresh false
          end
      end
  end.

End RefreshQuota.

Arguments mkQuotaRun {X} _ _ _ _ _.
Arguments run_strategy {X} _.
Arguments run_store {X} _.
Arguments run_calls {X} _.
Arguments run_refresh {X} _.
Arguments run_panicked {X} _.

(** *** The refreshes, one at a time

    [refreshRule] and [refreshQuota] hold [muRefresh] from start to end, so
    the runs that the two pollers and the [go s.refreshRule()] of
    [refreshQuota] start take place one after the other, in some order. *)
Inductive refresh :=
  | RuleRefresh (now : time)
  | QuotaRefresh (now : time).

Section Refreshes.

Variable Less : centralizedRule -> centralizedRule -> bool.
Variable Stats : centralizedQuota -> quotaStats * centralizedQuota.
Variable Update : centralizedQuota -> samplingTargetDocument -> centralizedQuota.

(** How a run ended: the exit of [refreshRule], or for [refreshQuota]
    whether a panic was recovered and whether [go s.refreshRule()] was
    issued. *)
Inductive refreshExit :=
  | RuleExit (exit : refreshRuleExit)
  | QuotaExit (panicked asked : bool).

Definition runRefresh {X} `{xrayAPI X} (op : refresh) (s : CentralizedStrategy X) (h : Store)
  : CentralizedStrategy X * Store * refreshExit :=
  match op with
  | RuleRefresh now =>
      let '(exit, s', h') := refreshRule Less now s h in (s', h', RuleExit exit)
  | QuotaRefresh now =>
      let run := refreshQuota Stats Update now s h in
      (run_strategy run, run_store run, QuotaExit (run_panicked run) (run_refresh run))
  end.

(** The runs of [ops] in order, with how each ended. *)
Fixpoint runRefreshes {X} `{xrayAPI X} (ops : list refresh)
    (s : CentralizedStrategy X) (h : Store)
  : CentralizedStrategy X * Store * list refreshExit :=
  match ops with
  | [] => (s, h, [])
  | op :: rest =>
      let '(s', h', exit) := runRefresh op s h in
      let '(s'', h'', exits) := runRefreshes rest s' h' in
      (s'', h'', exit :: exits)
  end.

End Refreshes.

(** *** newXRaySvc *)
Section NewXRaySvc.

(** [credentials.NewStaticCredentials(id, secret, token)] *)
Record StaticCredentials := NewStaticCredentials {
  AccessKeyID : string;
  SecretAccessKey : string;
  SessionToken : string
}.

(** [endpoints.ResolvedEndpoint]; only [URL] is set. *)
Record ResolvedEndpoint := mkResolvedEndpoint { URL : string }.

(** [aws.Config], the fields [newXRaySvc] fills in. *)
Record Config := mkConfig {
  Region : option string;
  Credentials : option StaticCredentials;
  EndpointResolver : option (string -> string -> ResolvedEndpoint + error)
}.

(** [request.HandlerList] over the SDK's [*request.Request], here [R]: a
    handler may rewrite the request it is given. *)
Context {R : Type}.

Definition HandlerList : Type := list (R -> R).

Definition Clear (l : HandlerList) : HandlerList := [].
Definition PushBack (l : HandlerList) (f : R -> R) : HandlerList := l ++ [f].

(** [HandlerList.Run]: every handler, in order. *)
Definition Run (l : HandlerList) (r : R) : R := fold_left (λ r f, f r) l r.

(** [*xraySvc.XRay]: the configuration it was made with and its [Sign]
    handlers. *)
Record XRay := mkXRay {
  ClientConfig : Config;
  Sign : HandlerList
}.

(** [session.NewSession] and [xraySvc.New] belong to the AWS SDK. *)
Context {Session : Type}.
Variable NewSession : Config -> Session + error.
Variable New : Session -> XRay.

(** Dummy session for unsigned requests *)
Definition dummyConfig (addr : string) : Config :=
  let url := "http://" +:+ addr in
  mkConfig (Some "us-west-1")
           (Some (NewStaticCredentials "" "" ""))
           (Some (λ _ _, inl (mkResolvedEndpoint url))).

(** The handler pushed in place of the signer: do nothing. *)
Definition noopSign : R -> R := λ r, r.

Definition newXRaySvc (addr : string) : XRay + error :=
  match NewSession (dummyConfig addr) with
  | inr err => inr err
  | inl sess =>
      let x := New sess in
      let x := mkXRay (ClientConfig x) (Clear (Sign x)) in
      let x := mkXRay (ClientConfig x) (PushBack (Sign x) noopSign) in
      inl x
  end.

End NewXRaySvc.

(** *** The mock of the package's tests *)

(** [xrayMock]: a client whose two methods are given as data. *)
Record xrayMock := mkXrayMock {
  getSamplingRulesPagesWithContext : list getSamplingRulesOutput * option error;
  getSamplingTargetsWithContext :
    getSamplingTargetsInput -> getSamplingTargetsOutput + error
}.

#[global] Instance xrayMock_API : xrayAPI xrayMock := {
  GetSamplingRulesPagesWithContext m :=
    (m, fst (getSamplingRulesPagesWithContext m), snd (getSamplingRulesPagesWithContext m));
  GetSamplingTargetsWithContext m input := (m, getSamplingTargetsWithContext m input)
}.

End Sampling.

(** ** What the AWS client hooks do to segments

    The hooks of both [xrayaws] packages call methods of [*xray.Segment],
    which is declared in package [xray]; a hook is modelled by the calls it
    makes, in order. *)
Module Hooks.

(** A Go [error] as its [Unwrap] chain, outermost first; [nil] is the empty
    chain.  [err_status] is the result of the node's [StatusCode() int]
    method, when its type has one. *)
Record errNode := mkErrNode {
  err_msg : string;
  err_status : option Z
}.
Definition error := list errNode.

(** [*xray.Segment] and [context.Context]: [None] is [nil]. *)
Definition segPtr := option nat.
Definition ctxPtr := option nat.

(** The values held in a [schema.AWS] payload and seen through [reflect]. *)
#[warnings="-register-all"]
Inductive value :=
  | VNil
  | VBool (b : bool)
  | VInt (n : Z)
  | VString (s : string)
  | VSlice (elems : list value)
  | VArray (elems : list value)
  | VMap (entries : list (value * value))
  | VStruct (fields : list (string * value))
  | VPtr (target : option value).

(** [schema.AWS] is a map from string keys, written as a map literal in
    [completeHandler]; [Set] stores under a key and [Get] reads it back. *)
Definition AWS_Set (aws : gmap string value) (key : string) (v : value) : gmap string value :=
  <[key := v]> aws.
Definition AWS_Get (aws : gmap string value) (key : string) : value :=
  default VNil (aws !! key).

Inductive call :=
  | Close
  | AddError (err : error)
  | SetFault
  | SetThrottle
  | SetHTTPResponse (status contentLength : Z)
  | SetAWS (data : gmap string value)
  | Cancel.

(** A method call on a segment; [Cancel] is the attempt's
    [context.CancelFunc], filed under the attempt segment. *)
Definition event : Type := segPtr * call.

(** The [Close()] calls and the [AddError] calls among the calls made. *)
Definition isClose (e : event) : bool :=
  match e.2 with Close => true | _ => false end.



(** The two handlers that end the unmarshal step: [afterUnmarshal] sits on
    the [Unmarshal] list, [afterUnmarshalError] on [UnmarshalError]. *)
Inductive unmarshalHook := AfterUnmarshal | AfterUnmarshalError.

(** [http.StatusTooManyRequests] *)
Definition StatusTooManyRequests : Z := 429.

(** [*http.Response], the parts [afterComplete] reads. *)
Record Response := mkResponse {
  StatusCode : Z;
  ContentLength : Z;
  x_amz_id_2 : string
}.

(** [*aws.Request] / [*request.Request], the parts the hooks read. *)
Record Request := mkRequest {
  Error : error;
  HTTPResponse : option Response
}.

(** The [Close()] calls made on the segment [p]. *)
Definition closesOn (p : segPtr) (evs : list event) : nat :=
  length (List.filter (λ e, bool_decide (e.1 = p) && isClose e) evs).

(** A step of the unmarshal phase of a request, attempt after attempt: the
    unmarshal subsegment is begun ([beforeUnmarshalMeta]), or one of the two
    handlers that end it runs. *)
Inductive unmarshalStep :=
  | BeginUnmarshal
  | EndUnmarshal (hk : unmarshalHook * Request).

(** A sequence of steps over the state [St] of a package's [subsegments].
    [next] numbers the subsegments that [xray.BeginSubsegment] creates, so
    that each is a new one; [log] collects the calls made. *)
Fixpoint runStepsWith {St : Type} (begin : nat -> St -> St)
    (finish : unmarshalHook * Request -> St -> St * list event)
    (steps : list unmarshalStep) (next : nat) (segs : St) (log : list event)
  : nat * St * list event :=
  match steps with
  | [] => (next, segs, log)
  | BeginUnmarshal :: rest =>
      runStepsWith begin finish rest (S next) (begin next segs) log
  | EndUnmarshal hk :: rest =>
      let '(segs', ev) := finish hk segs in
      runStepsWith begin finish rest next segs' (log ++ ev)
  end.

(** What a hook does to segments: it begins a subsegment, names the
    namespace of one, or calls another method of one.  What it does to the
    request itself (its context, its trace header, its client trace) is left
    out. *)
Inductive action :=
  | Began (seg : nat) (parent : ctxPtr) (name : string)
  | NamespaceSet (seg : segPtr) (ns : string)
  | Called (e : event).

Definition callsOf (log : list action) : list event :=
  omap (λ a, match a with Called e => Some e | _ => None end) log.

(** The segments begun and the segments closed, in order. *)
Definition begun (log : list action) : list segPtr :=
  omap (λ a, match a with Began seg _ _ => Some (Some seg) | _ => None end) log.

Definition closed (evs : list event) : list segPtr := (List.filter isClose evs).*1.

End Hooks.

(** ** xrayaws-v2 (aws-sdk-go-v2) *)
Module XrayawsV2.
Import Hooks.

Record subsegments := mkSubsegments {
  awsCtx : ctxPtr;
  awsSeg : segPtr;
  marshalCtx : ctxPtr;
  marshalSeg : segPtr;
  attemptCtx : ctxPtr;
  attemptSeg : segPtr;
  attemptCancel : bool;
  unmarshalCtx : ctxPtr;
  unmarshalSeg : segPtr
}.

Definition clearUnmarshal (segs : subsegments) : subsegments :=
  mkSubsegments (awsCtx segs) (awsSeg segs) (marshalCtx segs) (marshalSeg segs)
    (attemptCtx segs) (attemptSeg segs) (attemptCancel segs) None None.

Definition clearMarshal (segs : subsegments) : subsegments :=
  mkSubsegments (awsCtx segs) (awsSeg segs) None None
    (attemptCtx segs) (attemptSeg segs) (attemptCancel segs)
    (unmarshalCtx segs) (unmarshalSeg segs).

Definition clearAttempt (segs : subsegments) : subsegments :=
  mkSubsegments (awsCtx segs) (awsSeg segs) (marshalCtx segs) (marshalSeg segs)
    None None false (unmarshalCtx segs) (unmarshalSeg segs).

(** [xray.BeginSubsegment] returns a context and a segment that did not
    exist before; [fresh] names both. *)
Definition beforeUnmarshalMeta (fresh : nat) (segs : subsegments) : subsegments :=
  mkSubsegments (awsCtx segs) (awsSeg segs) (marshalCtx segs) (marshalSeg segs)
    (attemptCtx segs) (attemptSeg segs) (attemptCancel segs) (Some fresh) (Some fresh).

Definition afterUnmarshalError (r : Request) (segs : subsegments) : subsegments * list event :=
  match unmarshalCtx segs with
  | None => (segs, [])
  | Some _ =>
      (clearUnmarshal segs,
       [(unmarshalSeg segs, AddError (Error r)); (unmarshalSeg segs, Close)])
  end.

Definition afterUnmarshal (r : Request) (segs : subsegments) : subsegments * list event :=
  match unmarshalCtx segs with
  | None => (segs, [])
  | Some _ =>
      (clearUnmarshal segs,
       [(unmarshalSeg segs, AddError (Error r)); (unmarshalSeg segs, Close)])
  end.

(** One invocation of either handler, and a sequence of invocations on the
    same [subsegments], with the calls they make. *)
Definition runHook (hk : unmarshalHook * Request) (segs : subsegments)
  : subsegments * list event :=
  match hk.1 with
  | AfterUnmarshal => afterUnmarshal hk.2 segs
  | AfterUnmarshalError => afterUnmarshalError hk.2 segs
  end.

Fixpoint runHooks (hks : list (unmarshalHook * Request)) (segs : subsegments)
  : subsegments * list event :=
  match hks with
  | [] => (segs, [])
  | hk :: rest =>
      let '(segs, ev) := runHook hk segs in
      let '(segs, ev') := runHooks rest segs in
      (segs, ev ++ ev')
  end.

Definition runSteps := runStepsWith beforeUnmarshalMeta runHook.

(** [errors.As(err, &v)] for [v interface{ StatusCode() int }]: the first
    error of the chain that has the method; the result is what its
    [StatusCode()] returns. *)
Fixpoint errorsAsStatusCode (err : error) : option Z :=
  match err with
  | [] => None
  | e :: rest =>
      match err_status e with
      | Some c => Some c
      | None => errorsAsStatusCode rest
      end
  end.

Definition afterComplete (r : Request) (awsData : gmap string value) (segs : subsegments)
  : subsegments * list event :=
  (* make share all segments closed. *)
  let '(segs, ev1) :=
    match attemptCtx segs with
    | Some _ => (clearAttempt segs, [(attemptSeg segs, Cancel); (attemptSeg segs, Close)])
    | None => (segs, [])
    end in
  let '(segs, ev2) :=
    match marshalCtx segs with
    | Some _ => (clearMarshal segs, [(marshalSeg segs, Close)])
    | None => (segs, [])
    end in
  let '(segs, ev3) :=
    match unmarshalCtx segs with
    | Some _ => (clearUnmarshal segs, [(unmarshalSeg segs, Close)])
    | None => (segs, [])
    end in
  let '(awsData, ev4) :=
    match HTTPResponse r with
    | Some resp =>
        (* record the s3 extend request id. *)
        (if bool_decide (x_amz_id_2 resp = "") then awsData
         else AWS_Set awsData "id_2" (VString (x_amz_id_2 resp)),
         [(awsSeg segs, SetHTTPResponse (StatusCode resp) (ContentLength resp))])
    | None => (awsData, [])
    end in
  let ev5 := [(awsSeg segs, SetAWS awsData)] in
  let ev6 :=
    match errorsAsStatusCode (Error r) with
    | Some c => if c =? StatusTooManyRequests then [(awsSeg segs, SetThrottle)] else []
    | None => []
    end in
  (segs,
   ev1 ++ ev2 ++ ev3 ++ ev4 ++ ev5 ++ ev6
     ++ [(awsSeg segs, AddError (Error r)); (awsSeg segs, Close)]).

(** *** Whitelisted parameters *)

(** [whitelist.Descriptor] *)
Record Descriptor := mkDescriptor {
  RenameTo : string;
  Map : bool;
  GetKeys : bool;
  List : bool;
  GetCount : bool
}.



(** [for i := ...; i < v1.NumField(); i++], on the fields from [i] on. *)
Fixpoint fieldNamed (fields : list (string * value)) (key : string) : value :=
  match fields with
  | [] => VNil
  | (name, v) :: rest => if bool_decide (name = key) then v else fieldNamed rest key
  end.

Definition getValue (v : value) (key : string) : value :=
  let v1 := match v with
            | VPtr (Some target) => target
            | VPtr None => VNil
            | _ => v
            end in
  match v1 with
  | VStruct fields =>
      (* i starts 1 because first field is always struct{} *)
      fieldNamed (drop 1 fields) key
  | _ => VNil
  end.

Section InsertDescriptor.

(** [reflect.Value.MapKeys] returns the keys "in unspecified order"; the
    order it picks for the entries of a map is [MapKeys]. *)
Variable MapKeys : list (value * value) -> list value.

Definition insertDescriptor (desc : Descriptor) (aws : gmap string value)
    (v : value) (key : string) : gmap string value :=
  let renameTo := if bool_decide (RenameTo desc = "") then key else RenameTo desc in
  let val := getValue v key in
  if Map desc then
    if negb (GetKeys desc) then aws
    else
      match val with
      | VMap entries => AWS_Set aws renameTo (VSlice (MapKeys entries))
      | _ => aws
      end
  else if List desc then
    if negb (GetCount desc) then aws
    else
      match val with
      | VSlice elems | VArray elems => AWS_Set aws renameTo (VInt (Z.of_nat (length elems)))
      | _ => aws
      end
  else AWS_Set aws renameTo val.

End InsertDescriptor.

(** *** The completion handler and its whitelist *)

(** [whitelist.Operation], [whitelist.Service] and [whitelist.Whitelist].
    The descriptor maps of an operation are given by their entries, in the
    order in which the [range] loop over the map visits them. *)
Record Operation := mkOperation {
  RequestDescriptors : list (string * Descriptor);
  RequestParameters : list string;
  ResponseDescriptors : list (string * Descriptor);
  ResponseParameters : list string
}.

Record Service := mkService { Operations : gmap string Operation }.

Record Whitelist := mkWhitelist { Services : gmap string Service }.

(** [*aws.Request], with the parts that the completion handler reads. *)
Record awsRequest := mkAwsRequest {
  request : Request;
  EndpointsID : string;
  OperationName : string;
  Region : string;
  RetryCount : Z;
  RequestID : string;
  Params : value;
  Data : value
}.

Section CompleteHandler.

Variable MapKeys : list (value * value) -> list value.

(** The key that [insertDescriptor] writes to. *)
Definition renamed (desc : Descriptor) (key : string) : string :=
  if bool_decide (RenameTo desc = "") then key else RenameTo desc.

Definition insertParameters (v : value) (keys : list string) (aws : gmap string value)
  : gmap string value :=
  foldl (λ aws key, AWS_Set aws key (getValue v key)) aws keys.

Definition insertDescriptors (v : value) (descs : list (string * Descriptor))
    (aws : gmap string value) : gmap string value :=
  foldl (λ aws kd, insertDescriptor MapKeys kd.2 aws v kd.1) aws descs.

Definition insertParameter (aws : gmap string value) (r : awsRequest) (whitelist : Whitelist)
  : gmap string value :=
  match Services whitelist !! EndpointsID r with
  | None => aws
  | Some service =>
      match Operations service !! OperationName r with
      | None => aws
      | Some operation =>
          let aws := insertParameters (Params r) (RequestParameters operation) aws in
          let aws := insertDescriptors (Params r) (RequestDescriptors operation) aws in
          let aws := insertParameters (Data r) (ResponseParameters operation) aws in
          insertDescriptors (Data r) (ResponseDescriptors operation) aws
      end
  end.

(** The payload that [completeHandler] starts from. *)
Definition baseData (r : awsRequest) : gmap string value :=
  <["region" := VString (Region r)]>
    (<["operation" := VString (OperationName r)]>
       (<["retries" := VInt (RetryCount r)]>
          (<["request_id" := VString (RequestID r)]> ∅))).

(** The handler that [completeHandler(list)] returns, on a request whose
    context holds [segs]; without one it does nothing.  A [nil] list is the
    whitelist without services. *)
Definition completeHandler (whitelist : option Whitelist) (r : awsRequest)
    (segs : option subsegments) : option (subsegments * list event) :=
  let whitelist := default (mkWhitelist ∅) whitelist in
  match segs with
  | None => None
  | Some segs =>
      Some (afterComplete (request r) (insertParameter (baseData r) r whitelist) segs)
  end.

End CompleteHandler.

(** *** The other handlers, and a request from start to end *)

(** [beforeValidate] on the new [subsegments] of a request whose context is
    [ctx]: [xray.BeginSubsegment] returns a context and a segment that did
    not exist before, twice; [fresh] and [S fresh] name them. *)
Definition beforeValidate (endpointsID : string) (ctx : ctxPtr) (fresh : nat)
  : subsegments * list action :=
  (mkSubsegments (Some fresh) (Some fresh) (Some (S fresh)) (Some (S fresh))
     None None false None None,
   [Began fresh ctx endpointsID;
    NamespaceSet (Some fresh) "aws";
    Began (S fresh) (Some fresh) "marshal"]).

Definition afterBuild (segs : subsegments) : subsegments * list event :=
  match marshalSeg segs with
  | Some _ => (clearMarshal segs, [(marshalSeg segs, Close)])
  | None => (segs, [])
  end.

Definition beforeSign (fresh : nat) (segs : subsegments) : subsegments * list action :=
  (mkSubsegments (awsCtx segs) (awsSeg segs) (marshalCtx segs) (marshalSeg segs)
     (Some fresh) (Some fresh) true (unmarshalCtx segs) (unmarshalSeg segs),
   [Began fresh (awsCtx segs) "attempt"]).

Definition afterSend (r : Request) (segs : subsegments) : subsegments * list event :=
  match attemptCtx segs with
  | Some _ =>
      (mkSubsegments (awsCtx segs) (awsSeg segs) (marshalCtx segs) (marshalSeg segs)
         None None (attemptCancel segs) (unmarshalCtx segs) (unmarshalSeg segs),
       (* r.Error will be stored into segs.awsSeg, so we just set fault here. *)
       match Error r with
       | [] => []
       | _ :: _ => [(attemptSeg segs, SetFault)]
       end
       ++ [(attemptSeg segs, Cancel); (attemptSeg segs, Close)])
  | None => (segs, [])
  end.

(** The handlers that may run, any number of times, between
    [beforeValidate] and the completion handler. *)
Inductive handler :=
  | OnAfterBuild
  | OnBeforeSign
  | OnAfterSend (r : Request)
  | OnBeforeUnmarshalMeta
  | OnUnmarshal (hk : unmarshalHook * Request).

(** One handler; [next] numbers the subsegments begun so far. *)
Definition runHandler (hd : handler) (next : nat) (segs : subsegments)
  : nat * subsegments * list action :=
  match hd with
  | OnAfterBuild => let '(segs', evs) := afterBuild segs in (next, segs', Called <$> evs)
  | OnBeforeSign => let '(segs', acts) := beforeSign next segs in (S next, segs', acts)
  | OnAfterSend r => let '(segs', evs) := afterSend r segs in (next, segs', Called <$> evs)
  | OnBeforeUnmarshalMeta =>
      (S next, beforeUnmarshalMeta next segs, [Began next (awsCtx segs) "unmarshal"])
  | OnUnmarshal hk => let '(segs', evs) := runHook hk segs in (next, segs', Called <$> evs)
  end.

Fixpoint runHandlers (hds : list handler) (next : nat) (segs : subsegments)
  : nat * subsegments * list action :=
  match hds with
  | [] => (next, segs, [])
  | hd :: rest =>
      let '(next', segs', acts) := runHandler hd next segs in
      let '(next'', segs'', acts') := runHandlers rest next' segs' in
      (next'', segs'', acts ++ acts')
  end.

(** A request: [beforeValidate], the handlers [hds], the completion
    handler. *)
Definition runRequest (endpointsID : string) (ctx : ctxPtr) (next : nat)
    (hds : list handler) (r : Request) (awsData : gmap string value)
  : subsegments * list action :=
  let '(segs, acts) := beforeValidate endpointsID ctx next in
  let '(_, segs', acts') := runHandlers hds (S (S next)) segs in
  let '(segs'', evs) := afterComplete r awsData segs' in
  (segs'', acts ++ acts' ++ (Called <$> evs)).

End XrayawsV2.

(** ** xrayaws (aws-sdk-go) *)
Module Xrayaws.
Import Hooks.

Record subsegments := mkSubsegments {
  awsCtx : ctxPtr;
  awsSeg : segPtr;
  marshalCtx : ctxPtr;
  marshalSeg : segPtr;
  attemptCtx : ctxPtr;
  attemptSeg : segPtr;
  unmarshalCtx : ctxPtr;
  unmarshalSeg : segPtr
}.

Definition clearUnmarshal (segs : subsegments) : subsegments :=
  mkSubsegments (awsCtx segs) (awsSeg segs) (marshalCtx segs) (marshalSeg segs)
    (attemptCtx segs) (attemptSeg segs) None None.

Definition clearMarshal (segs : subsegments) : subsegments :=
  mkSubsegments (awsCtx segs) (awsSeg segs) None None
    (attemptCtx segs) (attemptSeg segs) (unmarshalCtx segs) (unmarshalSeg segs).

Definition clearAttempt (segs : subsegments) : subsegments :=
  mkSubsegments (awsCtx segs) (awsSeg segs) (marshalCtx segs) (marshalSeg segs)
    None None (unmarshalCtx segs) (unmarshalSeg segs).

(** [xray.BeginSubsegment] returns a context and a segment that did not
    exist before; [fresh] names both. *)
Definition beforeUnmarshalMeta (fresh : nat) (segs : subsegments) : subsegments :=
  mkSubsegments (awsCtx segs) (awsSeg segs) (marshalCtx segs) (marshalSeg segs)
    (attemptCtx segs) (attemptSeg segs) (Some fresh) (Some fresh).

Definition afterUnmarshalError (r : Request) (segs : subsegments) : subsegments * list event :=
  match unmarshalSeg segs with
  | None => (segs, [])
  | Some _ =>
      (clearUnmarshal segs,
       [(unmarshalSeg segs, AddError (Error r)); (unmarshalSeg segs, Close)])
  end.

Definition afterUnmarshal (r : Request) (segs : subsegments) : subsegments * list event :=
  match unmarshalSeg segs with
  | None => (segs, [])
  | Some _ =>
      (clearUnmarshal segs,
       [(unmarshalSeg segs, AddError (Error r)); (unmarshalSeg segs, Close)])
  end.

(** One invocation of either handler, and a sequence of invocations on the
    same [subsegments], with the calls they make. *)
Definition runHook (hk : unmarshalHook * Request) (segs : subsegments)
  : subsegments * list event :=
  match hk.1 with
  | AfterUnmarshal => afterUnmarshal hk.2 segs
  | AfterUnmarshalError => afterUnmarshalError hk.2 segs
  end.

Fixpoint runHooks (hks : list (unmarshalHook * Request)) (segs : subsegments)
  : subsegments * list event :=
  match hks with
  | [] => (segs, [])
  | hk :: rest =>
      let '(segs, ev) := runHook hk segs in
      let '(segs, ev') := runHooks rest segs in
      (segs, ev ++ ev')
  end.

Definition runSteps := runStepsWith beforeUnmarshalMeta runHook.

Definition closeAll (segs : subsegments) : subsegments * list event :=
  let '(segs, ev1) :=
    match attemptSeg segs with
    | Some _ => (clearAttempt segs, [(attemptSeg segs, Close)])
    | None => (segs, [])
    end in
  let '(segs, ev2) :=
    match marshalSeg segs with
    | Some _ => (clearMarshal segs, [(marshalSeg segs, Close)])
    | None => (segs, [])
    end in
  let '(segs, ev3) :=
    match unmarshalSeg segs with
    | Some _ => (clearUnmarshal segs, [(unmarshalSeg segs, Close)])
    | None => (segs, [])
    end in
  (segs, ev1 ++ ev2 ++ ev3).

Section AfterComplete.

(** [request.IsErrorThrottle] belongs to the AWS SDK. *)
Variable IsErrorThrottle : error -> bool.

Definition afterComplete (r : Request) (segs : subsegments) : subsegments * list event :=
  let '(segs, ev) := closeAll segs in
  (segs,
   ev ++ (if IsErrorThrottle (Error r) then [(awsSeg segs, SetThrottle)] else [])
      ++ [(awsSeg segs, AddError (Error r)); (awsSeg segs, Close)]).

End AfterComplete.

(** *** The other handlers, and a request from start to end *)

(** [beforeValidate] on the new [subsegments] of a request whose context is
    [ctx]; [fresh] and [S fresh] name the two subsegments begun. *)
Definition beforeValidate (serviceName : string) (ctx : ctxPtr) (fresh : nat)
  : subsegments * list action :=
  (mkSubsegments (Some fresh) (Some fresh) (Some (S fresh)) (Some (S fresh))
     None None None None,
   [Began fresh ctx serviceName;
    NamespaceSet (Some fresh) "aws";
    Began (S fresh) (Some fresh) "marshal"]).

Definition afterBuild (segs : subsegments) : subsegments * list event := closeAll segs.

Definition beforeSign (fresh : nat) (segs : subsegments) : subsegments * list action :=
  (mkSubsegments (awsCtx segs) (awsSeg segs) (marshalCtx segs) (marshalSeg segs)
     (Some fresh) (Some fresh) (unmarshalCtx segs) (unmarshalSeg segs),
   [Began fresh (awsCtx segs) "attempt"]).

(** The handlers that may run, any number of times, between
    [beforeValidate] and the completion handler. *)
Inductive handler :=
  | OnAfterBuild
  | OnBeforeSign
  | OnBeforeUnmarshalMeta
  | OnUnmarshal (hk : unmarshalHook * Request).

Definition runHandler (hd : handler) (next : nat) (segs : subsegments)
  : nat * subsegments * list action :=
  match hd with
  | OnAfterBuild => let '(segs', evs) := afterBuild segs in (next, segs', Called <$> evs)
  | OnBeforeSign => let '(segs', acts) := beforeSign next segs in (S next, segs', acts)
  | OnBeforeUnmarshalMeta =>
      (S next, beforeUnmarshalMeta next segs, [Began next (awsCtx segs) "unmarshal"])
  | OnUnmarshal hk => let '(segs', evs) := runHook hk segs in (next, segs', Called <$> evs)
  end.

Fixpoint runHandlers (hds : list handler) (next : nat) (segs : subsegments)
  : nat * subsegments * list action :=
  match hds with
  | [] => (next, segs, [])
  | hd :: rest =>
      let '(next', segs', acts) := runHandler hd next segs in
      let '(next'', segs'', acts') := runHandlers rest next' segs' in
      (next'', segs'', acts ++ acts')
  end.

Section Request.

Variable IsErrorThrottle : error -> bool.

(** A request: [beforeValidate], the handlers [hds], the completion
    handler. *)
Definition runRequest (serviceName : string) (ctx : ctxPtr) (next : nat)
    (hds : list handler) (r : Request) : subsegments * list action :=
  let '(segs, acts) := beforeValidate serviceName ctx next in
  let '(_, segs', acts') := runHandlers hds (S (S next)) segs in
  let '(segs'', evs) := afterComplete IsErrorThrottle r segs' in
  (segs'', acts ++ acts' ++ (Called <$> evs)).

End Request.

End Xrayaws.

(** ** xrayhttp/wrap.go *)
Module Xrayhttp.

(** The optional interfaces of a [http.ResponseWriter]. *)
Inductive iface := Flusher | CloseNotifier | Hijacker | Pusher.

#[global] Instance iface_eq_dec : EqDecision iface.
Proof. solve_decision. Defined.

(** The dynamic type of [rw.rw], by the result of each type assertion
    [rw.rw.(http.Flusher)], ... in [wrap]. *)
Record writer := mkWriter {
  isFlusher : bool;
  isCloseNotifier : bool;
  isHijacker : bool;
  isPusher : bool
}.

Definition assert (w : writer) (i : iface) : bool :=
  match i with
  | Flusher => isFlusher w
  | CloseNotifier => isCloseNotifier w
  | Hijacker => isHijacker w
  | Pusher => isPusher w
  end.

(** The capability mask [n] computed at the top of [wrap]. *)
Definition mask (w : writer) : Z :=
  let n := 0 in
  let n := if isFlusher w then Z.lor n 0x1 else n in
  let n := if isCloseNotifier w then Z.lor n 0x2 else n in
  let n := if isHijacker w then Z.lor n 0x4 else n in
  let n := if isPusher w then Z.lor n 0x8 else n in
  n.

(** A value of one of the anonymous struct types of [wrap]: the interfaces
    embedded after [responseWriter], in the order of the struct.  The
    embedded [responseWriter] supplies the methods of [http.ResponseWriter]
    and none of the optional ones. *)
Definition wrapped : Type := list iface.

(** [_, ok := v.(i)] on a wrapped value. *)
Definition implements (v : wrapped) (i : iface) : bool := bool_decide (i ∈ v).

(** [wrap]; [None] is [panic("unreachable")]. *)
Definition wrap (w : writer) : option wrapped :=
  match mask w with
  | 0x0 => Some []
  | 0x1 => Some [Flusher]
  | 0x2 => Some [CloseNotifier]
  | 0x3 => Some [Flusher; CloseNotifier]
  | 0x4 => Some [Hijacker]
  | 0x5 => Some [Flusher; Hijacker]
  | 0x6 => Some [CloseNotifier; Hijacker]
  | 0x7 => Some [Flusher; CloseNotifier; Hijacker]
  | 0x8 => Some [Pusher]
  | 0x9 => Some [Flusher; Pusher]
  | 0xa => Some [CloseNotifier; Pusher]
  | 0xb => Some [Flusher; CloseNotifier; Pusher]
  | 0xc => Some [Hijacker; Pusher]
  | 0xd => Some [Flusher; Hijacker; Pusher]
  | 0xe => Some [CloseNotifier; Hijacker; Pusher]
  | 0xf => Some [Flusher; CloseNotifier; Hijacker; Pusher]
  | _ => None
  end.

End Xrayhttp.

(** ** Fixtures: the values used by the package's tests *)
Module Fixtures.
Import Sampling.

(** A decision that names the rule that took it; [None] for the fallback. *)
Definition Decision : Type := option string.

Definition matchAny (r : centralizedRule) (req : unit) : bool := true.
Definition sampleByRule (r : centralizedRule) (h : Store) : Decision * Store :=
  (Some (ruleName r), h).
Definition localShouldTrace (l : unit) (req : unit) : Decision * unit := (None, l).

(** Rules in the order of the manifest: priority, then name. *)
Definition lessByPriorityName (a b : centralizedRule) : bool :=
  (priority a <? priority b)
  || ((priority a =? priority b) && String.ltb (ruleName a) (ruleName b)).

(** [TestCentralizedStrategy_refreshRule], first and second answer. *)
Definition ruleTest : samplingRule :=
  mkSamplingRule (Some (1 # 2)%Q) (Some "GET") (Some "example.com") None (Some 10)
    None (Some "*") (Some "Test") (Some "FooBar") (Some "AWS::EC2::Instance") None (Some 1).

Definition ruleTestWild : samplingRule :=
  mkSamplingRule (Some (1 # 1)%Q) (Some "*") (Some "*") None (Some 10)
    None (Some "*") (Some "Test") (Some "*") (Some "*") None (Some 1).

Definition onePage (r : samplingRule) : list getSamplingRulesOutput :=
  [mkGetSamplingRulesOutput None [mkSamplingRuleRecord None None (Some r)]].

Definition noTargets (input : getSamplingTargetsInput) : getSamplingTargetsOutput + error :=
  inr "not used".

Definition mockRules (r : samplingRule) : xrayMock :=
  mkXrayMock (onePage r, None) noTargets.

Definition mockRulesFailing (r : samplingRule) : xrayMock :=
  mkXrayMock (onePage r, Some "connection refused") noTargets.

Definition fresh (m : xrayMock) : CentralizedStrategy xrayMock * Store :=
  NewCentralizedStrategy m "0123456789abcdef01234567".

(** The state after the first [s.refreshRule()] of the test, at time [100]. *)
Definition afterFirstRefresh : CentralizedStrategy xrayMock * Store :=
  let '(_, s, h) := refreshRule lessByPriorityName 100 (fresh (mockRules ruleTest)).1
                      (fresh (mockRules ruleTest)).2 in
  (s, h).

(** Rules by priority alone. *)
Definition lessByPriority (a b : centralizedRule) : bool := priority a <? priority b.

(** A page whose record has no rule. *)
Definition mockNilRecord : xrayMock :=
  mkXrayMock ([mkGetSamplingRulesOutput None
                 [mkSamplingRuleRecord None None (Some ruleTest);
                  mkSamplingRuleRecord None None None]], None) noTargets.

(** [TestCentralizedStrategy_refreshQuota] *)
Definition quotaFooBar : centralizedQuota := mkQuota (0 # 1)%Q 0 zeroTime 30 10 20.

Definition manifestFooBar : centralizedManifest :=
  mkManifest [mkRule (Some 0%nat) "FooBar" 0 "" "" "" "" ""]
             {["FooBar" := Some 0%nat]} 2000000000000000000.

Definition targetFooBar : samplingTargetDocument :=
  mkSamplingTargetDocument (Some (1 # 2)%Q) (Some 15) (Some 13)
    (Some 1000000000000000000) (Some "FooBar").

Definition mockTargets (name : option string) (modified : option time) : xrayMock :=
  mkXrayMock ([], None)
    (λ _, inl (mkGetSamplingTargetsOutput modified
                 [mkSamplingTargetDocument (Some (1 # 2)%Q) (Some 15) (Some 13)
                    (Some 1000000000000000000) name] [])).

Definition strategyFooBar (m : xrayMock) : CentralizedStrategy xrayMock * Store :=
  (mkStrategy m "0123456789abcdef01234567" false (Some 0%nat),
   mkStore [quotaFooBar] [manifestFooBar]).

(** Modelled from the spec: [centralizedQuota.Stats] is declared outside
    this file; it returns the "per-second counters for
    requests/borrowed/sampled" of the reporting interval. *)
Definition Stats (q : centralizedQuota) : quotaStats * centralizedQuota :=
  (mkQuotaStats (requests q) (borrowed q) (sampled q),
   mkQuota (fixedRate q) (quota q) (ttl q) 0 0 0).

(** Modelled from the spec: [centralizedQuota.Update] is declared outside
    this file; "for each returned target document: update the reservoir's
    quota, ttl, fixedRate". *)
Definition Update (q : centralizedQuota) (doc : samplingTargetDocument) : centralizedQuota :=
  mkQuota (aws.Float64Value (TargetFixedRate doc))
          (aws.Int64Value (ReservoirQuota doc))
          (TimeValue (ReservoirQuotaTTL doc))
          (requests q) (borrowed q) (sampled q).

(** A manifest last refreshed at the epoch, with one rule that matches
    every request. *)
Definition staleManifest : centralizedManifest :=
  mkManifest [mkRule (Some 0%nat) "Default" 10000 "*" "*" "*" "*" "*"]
             {["Default" := Some 0%nat]} 0.

Definition staleStrategy : CentralizedStrategy unit * Store :=
  (mkStrategy tt "0123456789abcdef01234567" true (Some 0%nat),
   mkStore [mkQuota (1 # 1)%Q 0 zeroTime 0 0 0] [staleManifest]).



(** A [MapKeys] that lists the keys in the order of the entries. *)
Definition keysInOrder (entries : list (Hooks.value * Hooks.value)) : list Hooks.value :=
  map fst entries.

(** A request with its headers, a session that keeps the configuration it
    is given, and a client that starts with one signing handler. *)
Definition signV4 (headers : list string) : list string := "Authorization" :: headers.
Definition sessionOf (cfg : Config) : Config + error := inl cfg.
Definition clientOf (cfg : Config) : XRay (R := list string) := mkXRay cfg [signV4].

(** A segment tree with an open unmarshal subsegment, and a request that
    failed with a throttling error. *)
Definition openUnmarshalV2 : XrayawsV2.subsegments :=
  XrayawsV2.mkSubsegments (Some 1%nat) (Some 1%nat) None None None None false
    (Some 4%nat) (Some 4%nat).

Definition openUnmarshal : Xrayaws.subsegments :=
  Xrayaws.mkSubsegments (Some 1%nat) (Some 1%nat) None None None None
    (Some 4%nat) (Some 4%nat).

Definition throttled : Hooks.Request :=
  Hooks.mkRequest [Hooks.mkErrNode "slow down" (Some 429)]
    (Some (Hooks.mkResponse 429 0 "")).

(** [TestGetValue], [TestInsertDescriptor_list] and
    [TestInsertDescriptor_value]. *)
Definition fooStruct : Hooks.value :=
  Hooks.VStruct [("_", Hooks.VStruct []); ("Bar", Hooks.VInt 123)].

Definition listStruct : Hooks.value :=
  Hooks.VStruct
    [("_", Hooks.VStruct []);
     ("Foo", Hooks.VSlice [Hooks.VString "foo"; Hooks.VString "bar";
                           Hooks.VString "hoge"; Hooks.VString "fuga"])].


(** A whitelist with one operation, and a request for it. *)
Definition listOperation : XrayawsV2.Operation :=
  XrayawsV2.mkOperation [("Foo", XrayawsV2.mkDescriptor "foo_count" false false true true)]
    [] [] ["Bar"].

Definition oneWhitelist : XrayawsV2.Whitelist :=
  XrayawsV2.mkWhitelist
    {["dynamodb" := XrayawsV2.mkService {["ListTables" := listOperation]}]}.

Definition listTables : XrayawsV2.awsRequest :=
  XrayawsV2.mkAwsRequest throttled "dynamodb" "ListTables" "us-west-1" 0 "REQ1"
    listStruct fooStruct.

End Fixtures.

(** ** Predicates used to state what the refreshes do *)
Module SamplingSpec.
Import Sampling.

(** [rule] is the rule built for [record] against the manifest [old] in
    force, between the stores [h0] and [h1]: its quota is the one [old] has
    under the rule's name, else an object that [h0] did not have. *)
Definition builtFor (old : centralizedManifest) (h0 h1 : Store)
    (record : samplingRuleRecord) (rule : centralizedRule) : Prop :=
  ∃ r, SamplingRule record = Some r ∧ rule = ruleOf r (rule_quota rule) ∧
    match Quotas old !! aws.StringValue (RuleName r) with
    | Some q => rule_quota rule = q
    | None =>
        ∃ i, rule_quota rule = Some i ∧ (length (quotaObjs h0) ≤ i)%nat ∧
             quotaObjs h1 !! i = Some (borrowedQuota r)
    end.

(** [quotas[name] = quota], rule after rule. *)
Definition recordQuotas (quotas0 : gmap string quotaPtr) (rs : list centralizedRule)
  : gmap string quotaPtr :=
  foldl (λ qs rule, <[ruleName rule := rule_quota rule]> qs) quotas0 rs.

(** A pointer that is not [nil]: it points to an object of the store. *)
Definition quotaLive (h : Store) (p : quotaPtr) : Prop := is_Some (loadQuota h p).

(** No [nil] quota in the manifest, neither in a rule nor in the map. *)
Definition manifestLive (h : Store) (m : centralizedManifest) : Prop :=
  Forall (λ r, quotaLive h (rule_quota r)) (Rules m) ∧
  map_Forall (λ _ p, quotaLive h p) (Quotas m).

(** The same objects at the same places, whatever they hold. *)
Definition sameShape (h h' : Store) : Prop :=
  length (quotaObjs h') = length (quotaObjs h) ∧ manifestObjs h' = manifestObjs h.

(** The response names a rule the manifest has no quota for. *)
Definition unknownRule (m : centralizedManifest) (doc : samplingTargetDocument) : bool :=
  bool_decide (Quotas m !! aws.StringValue (TargetRuleName doc) = None).

(** The call was answered, and the answer names an unknown rule or reports
    a rule modification later than the manifest's [RefreshedAt]. *)
Definition asksForRefresh (m : centralizedManifest) (c : targetsCall) : bool :=
  match c.2 with
  | inl resp =>
      existsb (unknownRule m) (SamplingTargetDocuments resp)
      || After (TimeValue (LastRuleModification resp)) (RefreshedAt m)
  | inr _ => false
  end.

End SamplingSpec.

(** * Properties *)

(** ** Centralized sampling *)
Module SamplingFacts.
Import Sampling SamplingSpec.

Lemma forRange_app {A B} (body : B -> A -> M B) (xs ys : list A) (acc : B) (h : Store) :
  forRange body (xs ++ ys) acc h =
  match forRange body xs acc h with
  | (Some acc', h') => forRange body ys acc' h'
  | (None, h') => (None, h')
  end.
Proof.
  revert acc h. induction xs as [|x xs IH]; intros acc h; simpl; [done|].
  unfold mbind, M_bind. destruct (body acc x h) as [[acc'|] h']; [apply IH | done].
Qed.

Lemma forRange_cons {A B} (body : B -> A -> M B) (x : A) (xs : list A) (acc : B) (h : Store) :
  forRange body (x :: xs) acc h =
  match body acc x h with
  | (Some acc', h') => forRange body xs acc' h'
  | (None, h') => (None, h')
  end.
Proof. reflexivity. Qed.

(** The callback, page after page, is the record loop over all records. *)
Lemma addPages_concat (manifest : centralizedManifest) (pages : list getSamplingRulesOutput)
    (acc : list centralizedRule * gmap string quotaPtr) (h : Store) :
  forRange (addPage manifest) pages acc h =
  forRange (addRecord manifest) (concat (map SamplingRuleRecords pages)) acc h.
Proof.
  revert acc h. induction pages as [|p pages IH]; intros acc h; [done|].
  rewrite forRange_cons. simpl concat. rewrite forRange_app. unfold addPage at 1.
  destruct (forRange (addRecord manifest) (SamplingRuleRecords p) acc h) as [[acc'|] h'];
    [apply IH | done].
Qed.

(** *** What the record loop of [refreshRule] builds *)

Lemma builtFor_mono old h0 h0' h1 h1' record rule ext :
  (length (quotaObjs h0') ≤ length (quotaObjs h0))%nat →
  quotaObjs h1' = quotaObjs h1 ++ ext →
  builtFor old h0 h1 record rule → builtFor old h0' h1' record rule.
Proof.
  intros Hlen Hext (r & Hr & Hrule & Hq). exists r. split; [done|]. split; [done|].
  destruct (Quotas old !! aws.StringValue (RuleName r)); [done|].
  destruct Hq as (i & Hi & Hfresh & Hobj). exists i. split; [done|]. split; [lia|].
  rewrite Hext. by apply lookup_app_l_Some.
Qed.

Lemma quotaFor_spec old r h0 res h1 :
  quotaFor old r h0 = (res, h1) →
  ∃ q ext, res = Some q ∧ quotaObjs h1 = quotaObjs h0 ++ ext ∧
    manifestObjs h1 = manifestObjs h0 ∧
    match Quotas old !! aws.StringValue (RuleName r) with
    | Some q' => q = q' ∧ ext = []
    | None => q = Some (length (quotaObjs h0)) ∧ ext = [borrowedQuota r]
    end.
Proof.
  unfold quotaFor. destruct (Quotas old !! aws.StringValue (RuleName r)) as [q'|].
  - intros [= <- <-]. exists q', []. by rewrite app_nil_r.
  - unfold newQuota. intros [= <- <-]. by eexists _, _.
Qed.

(** The record loop only ever appends quota objects, whether or not it
    runs to its end. *)
Lemma addRecords_store old recs acc h0 res h1 :
  forRange (addRecord old) recs acc h0 = (res, h1) →
  ∃ ext, quotaObjs h1 = quotaObjs h0 ++ ext ∧ manifestObjs h1 = manifestObjs h0.
Proof.
  revert acc h0. induction recs as [|record recs IH]; intros acc h0.
  - intros [= _ <-]. exists []. by rewrite app_nil_r.
  - rewrite forRange_cons. unfold addRecord at 1.
    destruct (SamplingRule record) as [r|].
    + unfold mbind, M_bind. destruct (quotaFor old r h0) as [res0 hm] eqn:Hq.
      apply quotaFor_spec in Hq as (q & ext & -> & Hext & Hman & _).
      unfold mret, M_ret. intros Hrest. apply IH in Hrest as (ext' & Hext' & Hman').
      exists (ext ++ ext'). rewrite Hext', Hext, Hman', Hman. by rewrite app_assoc.
    + intros [= _ <-]. exists []. by rewrite app_nil_r.
Qed.

Lemma addRecords_spec old recs rules0 quotas0 h0 rules quotas h1 :
  forRange (addRecord old) recs (rules0, quotas0) h0 = (Some (rules, quotas), h1) →
  ∃ rs, rules = rules0 ++ rs ∧ quotas = recordQuotas quotas0 rs ∧
        Forall2 (builtFor old h0 h1) recs rs.
Proof.
  revert rules0 quotas0 h0. induction recs as [|record recs IH]; intros rules0 quotas0 h0.
  - intros [= <- <- <-]. exists []. by rewrite app_nil_r.
  - rewrite forRange_cons. unfold addRecord at 1.
    destruct (SamplingRule record) as [r|] eqn:Hrec; [|done].
    unfold mbind, M_bind. destruct (quotaFor old r h0) as [res0 hm] eqn:Hq.
    apply quotaFor_spec in Hq as (q & ext & -> & Hext & Hman & Hcase).
    unfold mret, M_ret. cbn [fst snd]. intros Hrest.
    destruct (addRecords_store _ _ _ _ _ _ Hrest) as (ext' & Hext' & _).
    apply IH in Hrest as (rs & -> & -> & Hall).
    exists (ruleOf r q :: rs). split; [by rewrite <- app_assoc|]. split; [done|].
    constructor.
    + exists r. split; [done|]. split; [done|]. cbn [rule_quota ruleOf].
      destruct (Quotas old !! aws.StringValue (RuleName r)) as [q'|].
      * by destruct Hcase.
      * destruct Hcase as [-> ->]. eexists. split; [done|]. split; [done|].
        rewrite Hext', Hext. apply lookup_app_l_Some.
        by rewrite lookup_app_r, Nat.sub_diag.
    + eapply Forall2_impl; [exact Hall|]. intros record' rule' Hb.
      eapply (builtFor_mono _ hm h0 h1 h1 _ _ []); [| by rewrite app_nil_r | exact Hb].
      rewrite Hext, length_app. lia.
Qed.

Lemma insertStable_perm Less x l : insertStable Less x l ≡ₚ x :: l.
Proof.
  induction l as [|y l IH]; simpl; [done|].
  destruct (Less y x); [|done]. rewrite IH. apply Permutation_swap.
Qed.

(** Sorting moves rules; it neither drops nor invents one. *)
Lemma sortStable_perm Less rules : sortStable Less rules ≡ₚ rules.
Proof.
  induction rules as [|r rules IH]; simpl; [done|].
  unfold sortStable in *. simpl. by rewrite insertStable_perm, IH.
Qed.

Lemma recordQuotas_snoc quotas0 rs rule :
  recordQuotas quotas0 (rs ++ [rule]) =
  <[ruleName rule := rule_quota rule]> (recordQuotas quotas0 rs).
Proof. unfold recordQuotas. by rewrite foldl_app. Qed.

(** An entry of the new map is an entry of the map the loop started from,
    or the quota of a rule of that name. *)
Lemma recordQuotas_lookup quotas0 rs name p :
  recordQuotas quotas0 rs !! name = Some p →
  quotas0 !! name = Some p ∨ ∃ rule, rule ∈ rs ∧ ruleName rule = name ∧ rule_quota rule = p.
Proof.
  induction rs as [|rule rs IH] using rev_ind; [by left|].
  rewrite recordQuotas_snoc. destruct (decide (ruleName rule = name)) as [Heq|Hne].
  - rewrite <- Heq, lookup_insert_eq. intros [= <-]. right. exists rule.
    split; [|done]. apply elem_of_app. right. by apply list_elem_of_singleton.
  - rewrite lookup_insert_ne by done. intros H. apply IH in H as [H|(rule' & Hin & Hn & Hq)].
    + by left.
    + right. exists rule'. split; [|done]. apply elem_of_app. by left.
Qed.

(** Every rule has an entry under its name. *)
Lemma recordQuotas_is_Some quotas0 rs rule :
  rule ∈ rs → is_Some (recordQuotas quotas0 rs !! ruleName rule).
Proof.
  induction rs as [|rule' rs IH] using rev_ind; [by intros ?%elem_of_nil|].
  rewrite recordQuotas_snoc. intros Hin.
  destruct (decide (ruleName rule' = ruleName rule)) as [Heq|Hne].
  - rewrite <- Heq, lookup_insert_eq. by eexists.
  - rewrite lookup_insert_ne by done. apply IH.
    apply elem_of_app in Hin as [Hin|Hin]; [done|].
    apply list_elem_of_singleton in Hin. by subst.
Qed.

Lemma builtFor_name old h0 h1 record rule r :
  builtFor old h0 h1 record rule → SamplingRule record = Some r →
  ruleName rule = aws.StringValue (RuleName r) ∧ rule = ruleOf r (rule_quota rule).
Proof.
  intros (r' & Hr' & Hrule & _) Hr. rewrite Hr in Hr'. injection Hr' as <-.
  split; [|done]. by rewrite Hrule.
Qed.

(** A rule built by the loop comes from one of the records. *)
Lemma Forall2_builtFor_inv old h0 h1 recs rs rule :
  Forall2 (builtFor old h0 h1) recs rs → rule ∈ rs →
  ∃ record, record ∈ recs ∧ builtFor old h0 h1 record rule.
Proof.
  intros Hall (i & Hi)%list_elem_of_lookup_1.
  destruct (Forall2_lookup_r _ _ _ _ _ Hall Hi) as (record & Hrec & Hb).
  exists record. split; [by eapply list_elem_of_lookup_2 | done].
Qed.

(** *** The runs of [refreshRule] *)

(** What a run of [refreshRule] that got as far as the record loop did:
    the manifest [old] it read, the pages it was handed, the error. *)
Lemma refreshRule_unfold {X} `{xrayAPI X} Less now (s : CentralizedStrategy X) h :
  refreshRule Less now s h =
  match loadManifest h (getManifest s) with
  | None => (RulesPanicked, s, h)
  | Some old =>
      let x := (GetSamplingRulesPagesWithContext (xray s)).1.1 in
      let pages := (GetSamplingRulesPagesWithContext (xray s)).1.2 in
      let err := (GetSamplingRulesPagesWithContext (xray s)).2 in
      match forRange (addRecord old) (concat (map SamplingRuleRecords pages)) ([], ∅) h with
      | (None, h1) => (RulesPanicked, setXray s x, h1)
      | (Some (rules, quotas), h1) =>
          match err with
          | Some e => (RulesFailed e, setXray s x, h1)
          | None =>
              (RulesRefreshed,
               setManifest (setXray s x) (Some (length (manifestObjs h1))),
               mkStore (quotaObjs h1)
                 (manifestObjs h1 ++ [mkManifest (sortStable Less rules) quotas now]))
          end
      end
  end.
Proof.
  unfold refreshRule. destruct (loadManifest h (getManifest s)) as [old|]; [|done].
  destruct (GetSamplingRulesPagesWithContext (xray s)) as [[x pages] err]. cbn [fst snd].
  rewrite addPages_concat.
  destruct (forRange (addRecord old) (concat (map SamplingRuleRecords pages)) ([], ∅) h)
    as [[[rules quotas]|] h1]; [|done].
  by destruct err.
Qed.

Lemma builtFor_quota_old old h0 h1 record rule q :
  builtFor old h0 h1 record rule → Quotas old !! ruleName rule = Some q →
  rule_quota rule = q.
Proof.
  intros (r & _ & Hrule & Hq) Hold.
  assert (ruleName rule = aws.StringValue (RuleName r)) as Hn by by rewrite Hrule.
  rewrite <- Hn, Hold in Hq. done.
Qed.

Lemma builtFor_quota_new old h0 h1 record rule :
  builtFor old h0 h1 record rule → Quotas old !! ruleName rule = None →
  ∃ r i, SamplingRule record = Some r ∧ rule = ruleOf r (Some i) ∧
         (length (quotaObjs h0) ≤ i)%nat ∧ quotaObjs h1 !! i = Some (borrowedQuota r).
Proof.
  intros (r & Hr & Hrule & Hq) Hold.
  assert (ruleName rule = aws.StringValue (RuleName r)) as Hn by by rewrite Hrule.
  rewrite <- Hn, Hold in Hq. destruct Hq as (i & Hi & Hfresh & Hobj).
  exists r, i. rewrite Hi in Hrule. done.
Qed.

(** C2. After a run of [refreshRule] that installs a manifest, for every
    rule the service returned: if the manifest that was in force has a quota
    under the rule's name, the new manifest has that very pointer under the
    name and in every rule of that name, and the object it points to is
    untouched; otherwise the rule built from the record points to a quota
    object that did not exist before the run, whose [fixedRate] is the
    record's [FixedRate] and whose [quota] is zero, and the entry under the
    name is such a new object with zero [quota] as well. *)
Theorem refreshRule_reuses_quota_by_name {X} `{xrayAPI X} Less now
    (s s' : CentralizedStrategy X) (h h' : Store) (old : centralizedManifest) :
  loadManifest h (getManifest s) = Some old →
  refreshRule Less now s h = (RulesRefreshed, s', h') →
  ∃ new, loadManifest h' (getManifest s') = Some new ∧
    ∀ out record r,
      out ∈ (GetSamplingRulesPagesWithContext (xray s)).1.2 →
      record ∈ SamplingRuleRecords out →
      SamplingRule record = Some r →
      (∀ q, Quotas old !! aws.StringValue (RuleName r) = Some q →
         Quotas new !! aws.StringValue (RuleName r) = Some q ∧
         ruleOf r q ∈ Rules new ∧
         (∀ rule, rule ∈ Rules new →
            ruleName rule = aws.StringValue (RuleName r) → rule_quota rule = q) ∧
         (∀ c, loadQuota h q = Some c → loadQuota h' q = Some c)) ∧
      (Quotas old !! aws.StringValue (RuleName r) = None →
         (∃ i c, ruleOf r (Some i) ∈ Rules new ∧
            (length (quotaObjs h) ≤ i)%nat ∧
            loadQuota h' (Some i) = Some c ∧
            fixedRate c = aws.Float64Value (FixedRate r) ∧ quota c = 0) ∧
         (∃ j c, Quotas new !! aws.StringValue (RuleName r) = Some (Some j) ∧
            (length (quotaObjs h) ≤ j)%nat ∧
            loadQuota h' (Some j) = Some c ∧ quota c = 0)).
Proof.
  intros Hold. rewrite refreshRule_unfold, Hold. cbn zeta.
  destruct (forRange _ _ _ h) as [[[rules quotas]|] h1] eqn:Hloop; [|done].
  destruct ((GetSamplingRulesPagesWithContext (xray s)).2); [done|].
  intros [= <- <-].
  destruct (addRecords_store _ _ _ _ _ _ Hloop) as (ext & Hext & Hman).
  apply addRecords_spec in Hloop as (rs & -> & -> & Hall). rewrite app_nil_l in *.
  eexists. split.
  { unfold loadManifest, getManifest. cbn. by rewrite lookup_app_r, Nat.sub_diag. }
  cbn [Rules Quotas]. intros out record r Hout Hrecord Hr.
  assert (record ∈ concat (map SamplingRuleRecords
            (GetSamplingRulesPagesWithContext (xray s)).1.2)) as Hin.
  { apply list_elem_of_In, in_concat. exists (SamplingRuleRecords out).
    split; [apply in_map|]; by apply list_elem_of_In. }
  apply list_elem_of_lookup_1 in Hin as (k & Hk).
  destruct (Forall2_lookup_l _ _ _ _ _ Hall Hk) as (rule & Hrule & Hbuilt).
  apply list_elem_of_lookup_2 in Hrule.
  destruct (builtFor_name _ _ _ _ _ _ Hbuilt Hr) as [Hname Hshape].
  assert (∀ rule', rule' ∈ sortStable Less rs ↔ rule' ∈ rs) as Hsort.
  { intros rule'. by rewrite sortStable_perm. }
  destruct (recordQuotas_is_Some ∅ rs rule Hrule) as (p & Hp). rewrite Hname in Hp.
  destruct (recordQuotas_lookup _ _ _ _ Hp) as [Hempty|(rule' & Hrule' & Hname' & <-)];
    [by rewrite lookup_empty in Hempty|].
  destruct (Forall2_builtFor_inv _ _ _ _ _ _ Hall Hrule') as (record' & _ & Hbuilt').
  split.
  - intros q Hq. repeat split.
    + etrans; [exact Hp|]. f_equal. eapply builtFor_quota_old; [exact Hbuilt'|]. by rewrite Hname'.
    + apply Hsort. rewrite <- (builtFor_quota_old _ _ _ _ _ q Hbuilt) by by rewrite Hname.
      by rewrite <- Hshape.
    + intros rule'' Hin'' Hname''. apply Hsort in Hin''.
      destruct (Forall2_builtFor_inv _ _ _ _ _ _ Hall Hin'') as (record'' & _ & Hbuilt'').
      eapply builtFor_quota_old; [exact Hbuilt''|]. by rewrite Hname''.
    + intros c. unfold loadQuota. destruct q as [i|]; [|done]. cbn. rewrite Hext.
      apply lookup_app_l_Some.
  - intros Hnone. split.
    + destruct (builtFor_quota_new _ _ _ _ _ Hbuilt) as (r0 & i & Hr0 & -> & Hfresh & Hobj);
        [by rewrite Hname|].
      rewrite Hr in Hr0. injection Hr0 as <-.
      exists i, (borrowedQuota r). split; [by apply Hsort|]. done.
    + destruct (builtFor_quota_new _ _ _ _ _ Hbuilt') as (r0 & j & _ & -> & Hfresh & Hobj);
        [by rewrite Hname'|].
      exists j, (borrowedQuota r0). split; [exact Hp|]. done.
Qed.

(** C3. When [GetSamplingRulesPagesWithContext] returns an error, whatever
    pages it delivered before, [refreshRule] leaves the strategy's manifest
    pointer as it was, and the manifest it points to and the quota objects
    the store had are the same as before. *)
Theorem refreshRule_error_keeps_manifest {X} `{xrayAPI X} Less now
    (s : CentralizedStrategy X) (h : Store) :
  is_Some (GetSamplingRulesPagesWithContext (xray s)).2 →
  getManifest (refreshRule Less now s h).1.2 = getManifest s ∧
  loadManifest (refreshRule Less now s h).2 (getManifest s) = loadManifest h (getManifest s) ∧
  (refreshRule Less now s h).1.1 ≠ RulesRefreshed ∧
  ∀ i c, quotaObjs h !! i = Some c → quotaObjs (refreshRule Less now s h).2 !! i = Some c.
Proof.
  intros [e He]. rewrite refreshRule_unfold.
  destruct (loadManifest h (getManifest s)) as [old|] eqn:Hold; [|done]. cbn zeta.
  destruct (forRange _ _ _ h) as [[[rules quotas]|] h1] eqn:Hloop; rewrite ?He; cbn [fst snd];
    destruct (addRecords_store _ _ _ _ _ _ Hloop) as (ext & Hext & Hman);
    (repeat split;
     [ by unfold loadManifest in *; rewrite Hman
     | done
     | by intros i c Hi; rewrite Hext; apply lookup_app_l_Some ]).
Qed.

(** *** What the loops of [refreshQuota] do *)

Lemma sameShape_refl h : sameShape h h.
Proof. done. Qed.

Lemma sameShape_trans h1 h2 h3 : sameShape h1 h2 → sameShape h2 h3 → sameShape h1 h3.
Proof. intros [? ?] [? ?]. split; congruence. Qed.

Lemma sameShape_storeQuota h i q : sameShape h (storeQuota h i q).
Proof. split; [apply length_insert | done]. Qed.

Lemma quotaLive_shape h h' p : sameShape h h' → quotaLive h p → quotaLive h' p.
Proof.
  intros [Hlen _]. unfold quotaLive, loadQuota. destruct p as [i|]; cbn; [|done].
  rewrite !lookup_lt_is_Some. lia.
Qed.

Lemma sameShape_loadManifest h h' p : sameShape h h' → loadManifest h' p = loadManifest h p.
Proof. intros [_ Hman]. unfold loadManifest. by rewrite Hman. Qed.

Section QuotaLoops.

Variable Stats : centralizedQuota -> quotaStats * centralizedQuota.
Variable Update : centralizedQuota -> samplingTargetDocument -> centralizedQuota.

Lemma callStats_live p h :
  quotaLive h p → ∃ st h', callStats Stats p h = (Some st, h') ∧ sameShape h h'.
Proof.
  unfold quotaLive, loadQuota, callStats. destruct p as [i|]; cbn; [|by intros [? ?]].
  intros [q ->]. destruct (Stats q) as [st q']. eexists _, _.
  split; [done | apply sameShape_storeQuota].
Qed.

Lemma callUpdate_live p doc h :
  quotaLive h p → ∃ h', callUpdate Update p doc h = (Some tt, h') ∧ sameShape h h'.
Proof.
  unfold quotaLive, loadQuota, callUpdate. destruct p as [i|]; cbn; [|by intros [? ?]].
  intros [q ->]. eexists. split; [done | apply sameShape_storeQuota].
Qed.

(** The statistics loop yields one document per rule, in the rules' order. *)
Lemma addStats_live id now rules acc h :
  Forall (λ r, quotaLive h (rule_quota r)) rules →
  ∃ docs h', forRange (addStat Stats id now) rules acc h = (Some (acc ++ docs), h') ∧
             sameShape h h' ∧ map StatRuleName docs = map ruleName rules.
Proof.
  revert acc h. induction rules as [|r rules IH]; intros acc h Hlive.
  - exists [], h. by rewrite app_nil_r.
  - apply Forall_cons in Hlive as [Hr Hrules].
    destruct (callStats_live _ _ Hr) as (st & hm & Hst & Hshape).
    destruct (IH (acc ++ [mkSamplingStatisticsDocument (stat_borrowed st) id
                            (stat_requests st) (ruleName r) (stat_sampled st) now]) hm)
      as (docs & h' & Hloop & Hshape' & Hnames).
    { eapply Forall_impl; [exact Hrules|]. intros r'. by apply quotaLive_shape. }
    eexists (_ :: docs), h'. rewrite forRange_cons. unfold addStat at 1.
    unfold mbind, M_bind. rewrite Hst. unfold mret, M_ret. rewrite Hloop.
    split; [by rewrite <- app_assoc|]. split; [by eapply sameShape_trans|].
    cbn. by f_equal.
Qed.

(** The loop over the documents of one response. *)
Lemma applyTargets_live m docs needRefresh h :
  map_Forall (λ _ p, quotaLive h p) (Quotas m) →
  ∃ h', forRange (applyTarget Update m) docs needRefresh h =
          (Some (needRefresh || existsb (unknownRule m) docs), h') ∧
        sameShape h h'.
Proof.
  revert needRefresh h. induction docs as [|doc docs IH]; intros needRefresh h Hlive.
  - exists h. cbn. by rewrite orb_false_r.
  - rewrite forRange_cons. unfold applyTarget at 1. cbn [existsb]. unfold unknownRule at 1.
    destruct (Quotas m !! aws.StringValue (TargetRuleName doc)) as [p|] eqn:Hp.
    + destruct (callUpdate_live p doc h) as (hm & Hup & Hshape); [by eapply Hlive|].
      unfold mbind, M_bind. rewrite Hup. unfold mret at 1, M_ret at 1.
      destruct (IH needRefresh hm) as (h' & Hloop & Hshape').
      { eapply map_Forall_impl; [exact Hlive|]. intros ? ?. by apply quotaLive_shape. }
      exists h'. rewrite Hloop. split; [|by eapply sameShape_trans].
      by rewrite bool_decide_eq_false_2.
    + unfold mret at 1, M_ret at 1. destruct (IH true h Hlive) as (h' & Hloop & Hshape').
      exists h'. rewrite Hloop. split; [|done].
      rewrite bool_decide_eq_true_2 by done. by rewrite orb_true_r.
Qed.

End QuotaLoops.

Section Batches.

Variable Stats : centralizedQuota -> quotaStats * centralizedQuota.
Variable Update : centralizedQuota -> samplingTargetDocument -> centralizedQuota.

Lemma batchLen_bounds stats :
  (batchLen stats ≤ maxTargets)%nat ∧ (batchLen stats ≤ length stats)%nat ∧
  (stats ≠ [] → 0 < batchLen stats)%nat.
Proof.
  unfold batchLen, maxTargets. destruct (Nat.ltb_spec 25 (length stats)).
  - repeat split; lia.
  - repeat split; [lia | lia |]. destruct stats; [done | cbn; lia].
Qed.

Lemma batch_count stats :
  stats ≠ [] →
  (S ((length (drop (batchLen stats) stats) + 24) / 25) = (length stats + 24) / 25)%nat.
Proof.
  intros Hne. rewrite length_drop. unfold batchLen, maxTargets.
  assert (0 < length stats)%nat by (destruct stats; [done | cbn; lia]).
  destruct (Nat.ltb_spec 25 (length stats)).
  - replace (length stats + 24)%nat with (length stats - 25 + 24 + 1 * 25)%nat by lia.
    rewrite Nat.div_add by lia. lia.
  - rewrite Nat.sub_diag, (Nat.div_small (0 + 24) 25) by lia.
    apply (Nat.div_unique _ 25 1 (length stats - 1)); lia.
Qed.

Lemma sendBatches_live {X} `{xrayAPI X} m stats (x : X) needRefresh calls h :
  map_Forall (λ _ p, quotaLive h p) (Quotas m) →
  ∃ x' new h',
    sendBatches Update m stats x needRefresh calls h =
      (Some (needRefresh || existsb (asksForRefresh m) new), x', calls ++ new, h') ∧
    sameShape h h' ∧
    Forall (λ c, (length (SamplingStatisticsDocuments c.1) ≤ maxTargets)%nat) new ∧
    concat (map (λ c, SamplingStatisticsDocuments c.1) new) = stats ∧
    length new = ((length stats + 24) / 25)%nat.
Proof.
  funelim (sendBatches Update m stats x needRefresh calls h).
  all: intros Hlive.
  - exists x, [], h. rewrite app_nil_r, orb_false_r. done.
  - destruct (H0 Hlive) as (x'' & new & h' & Hcall & Hshape & Hsize & Hcat & Hlen).
    exists x'', ((mkGetSamplingTargetsInput (take (batchLen (d :: ds)) (d :: ds)), inr err)
                   :: new), h'.
    rewrite Hcall, <- app_assoc.
    split; [done|]. split; [done|]. split; [|split].
    + constructor; [|done]. cbn. rewrite length_take.
      pose proof (batchLen_bounds (d :: ds)) as [? _]. lia.
    + cbn [map concat fst]. cbn [SamplingStatisticsDocuments].
      rewrite Hcat. apply take_drop.
    + cbn [length]. rewrite Hlen. by apply batch_count.
  - destruct (applyTargets_live Update manifest0 (SamplingTargetDocuments resp)
                needRefresh h Hlive) as (h1 & Hloop & Hshape1).
    rewrite Hloop in Heq. injection Heq as <- <-.
    destruct H0 as (x'' & new & h'' & Hcall & Hshape & Hsize & Hcat & Hlen).
    { eapply map_Forall_impl; [exact Hlive|]. intros ? ?. by apply quotaLive_shape. }
    exists x'', ((mkGetSamplingTargetsInput (take (batchLen (d :: ds)) (d :: ds)), inl resp)
                   :: new), h''.
    rewrite Hcall, <- app_assoc.
    split; [|split; [by eapply sameShape_trans|split; [|split]]].
    + cbn [existsb].
      change (asksForRefresh manifest0 (_, inl resp))
        with (existsb (unknownRule manifest0) (SamplingTargetDocuments resp)
              || After (TimeValue (LastRuleModification resp)) (RefreshedAt manifest0)).
      by rewrite !orb_assoc.
    + constructor; [|done]. cbn. rewrite length_take.
      pose proof (batchLen_bounds (d :: ds)) as [? _]. lia.
    + cbn [map concat fst]. cbn [SamplingStatisticsDocuments].
      rewrite Hcat. apply take_drop.
    + cbn [length]. rewrite Hlen. by apply batch_count.
  - destruct (applyTargets_live Update manifest0 (SamplingTargetDocuments resp)
                needRefresh h Hlive) as (h1 & Hloop & _).
    by rewrite Hloop in Heq.
Qed.
(** On a manifest without [nil] quotas, [refreshQuota] does not panic: it
    sends the collected documents in batches and ends by asking for a rule
    refresh iff one of the calls called for it. *)
Lemma refreshQuota_live {X} `{xrayAPI X} now (s : CentralizedStrategy X) h m :
  loadManifest h (getManifest s) = Some m →
  manifestLive h m →
  ∃ x' calls h',
    refreshQuota Stats Update now s h =
      mkQuotaRun (setXray s x') h' calls (existsb (asksForRefresh m) calls) false ∧
    sameShape h h' ∧
    Forall (λ c, (length (SamplingStatisticsDocuments c.1) ≤ maxTargets)%nat) calls ∧
    map StatRuleName (concat (map (λ c, SamplingStatisticsDocuments c.1) calls))
      = map ruleName (Rules m) ∧
    length calls = ((length (Rules m) + 24) / 25)%nat.
Proof.
  intros Hm [Hrules Hquotas]. unfold refreshQuota. rewrite Hm.
  destruct (addStats_live Stats (clientID s) now (Rules m) [] h Hrules)
    as (docs & h1 & -> & Hshape1 & Hnames). rewrite app_nil_l.
  destruct (sendBatches_live m docs (xray s) false [] h1)
    as (x' & calls & h' & -> & Hshape & Hsize & Hcat & Hlen).
  { eapply map_Forall_impl; [exact Hquotas|]. intros ? ?. by apply quotaLive_shape. }
  exists x', calls, h'. rewrite app_nil_l, orb_false_l.
  split; [done|]. split; [by eapply sameShape_trans|]. split; [done|].
  rewrite Hcat, Hlen, Hnames. split; [done|].
  by rewrite <- (length_map StatRuleName), Hnames, length_map.
Qed.

(** [refreshQuota] leaves the manifest in force, and it still has no [nil]
    quota afterwards. *)
Lemma refreshQuota_keeps_live {X} `{xrayAPI X} now (s : CentralizedStrategy X) h m :
  loadManifest h (getManifest s) = Some m →
  manifestLive h m →
  loadManifest (run_store (refreshQuota Stats Update now s h))
    (getManifest (run_strategy (refreshQuota Stats Update now s h))) = Some m ∧
  manifestLive (run_store (refreshQuota Stats Update now s h)) m ∧
  run_panicked (refreshQuota Stats Update now s h) = false.
Proof.
  intros Hm Hlive.
  destruct (refreshQuota_live now s h m Hm Hlive) as (x' & calls & h' & -> & Hshape & _).
  cbn [run_store run_strategy run_panicked]. split; [|split; [|done]].
  - etrans; [apply (sameShape_loadManifest h h' _ Hshape)|]. exact Hm.
  - destruct Hlive as [Hrules Hquotas]. split.
    + eapply Forall_impl; [exact Hrules|]. intros r. by apply quotaLive_shape.
    + eapply map_Forall_impl; [exact Hquotas|]. intros ? ?. by apply quotaLive_shape.
Qed.

(** C4. On a manifest without [nil] quotas, a run of [refreshQuota] ends
    with [go s.refreshRule()] exactly when one of its
    [GetSamplingTargetsWithContext] calls was answered with a response that
    names a rule absent from the manifest's [Quotas], or whose
    [LastRuleModification] is after the manifest's [RefreshedAt]. *)
Theorem refreshQuota_refresh_iff {X} `{xrayAPI X} now (s : CentralizedStrategy X) h m :
  loadManifest h (getManifest s) = Some m →
  manifestLive h m →
  run_refresh (refreshQuota Stats Update now s h) = true ↔
  ∃ input resp,
    (input, inl resp) ∈ run_calls (refreshQuota Stats Update now s h) ∧
    ((∃ doc, doc ∈ SamplingTargetDocuments resp ∧
             Quotas m !! aws.StringValue (TargetRuleName doc) = None) ∨
     RefreshedAt m < TimeValue (LastRuleModification resp)).
Proof.
  intros Hm Hlive.
  destruct (refreshQuota_live now s h m Hm Hlive) as (x' & calls & h' & -> & _).
  cbn [run_refresh run_calls]. rewrite existsb_exists. split.
  - intros ([input [resp|err]] & Hin & Hasks); [|done].
    exists input, resp. split; [by apply list_elem_of_In|].
    unfold asksForRefresh in Hasks. cbn [snd] in Hasks.
    apply orb_true_iff in Hasks as [Hdoc|Hafter].
    + left. apply existsb_exists in Hdoc as (doc & Hdoc & Hunknown).
      exists doc. split; [by apply list_elem_of_In|].
      by apply bool_decide_eq_true_1 in Hunknown.
    + right. by apply Z.ltb_lt in Hafter.
  - intros (input & resp & Hin & Hwhy). exists (input, inl resp).
    split; [by apply list_elem_of_In|]. unfold asksForRefresh. cbn [snd].
    apply orb_true_iff. destruct Hwhy as [(doc & Hdoc & Hunknown)|Hafter].
    + left. apply existsb_exists. exists doc. split; [by apply list_elem_of_In|].
      by apply bool_decide_eq_true_2.
    + right. by apply Z.ltb_lt.
Qed.

(** C5. On a manifest of [n] rules without [nil] quotas, no
    [GetSamplingTargetsWithContext] call of a run of [refreshQuota] carries
    more than 25 statistics documents; the documents of all calls, taken in
    order, are the rules' documents, one per rule in the rules' order; and
    the run makes [ceil(n/25)] calls, none when there is no rule. *)
Theorem refreshQuota_batches {X} `{xrayAPI X} now (s : CentralizedStrategy X) h m :
  loadManifest h (getManifest s) = Some m →
  manifestLive h m →
  Forall (λ c, (length (SamplingStatisticsDocuments c.1) ≤ 25)%nat)
         (run_calls (refreshQuota Stats Update now s h)) ∧
  map StatRuleName
      (concat (map (λ c, SamplingStatisticsDocuments c.1)
                   (run_calls (refreshQuota Stats Update now s h))))
    = map ruleName (Rules m) ∧
  length (run_calls (refreshQuota Stats Update now s h))
    = ((length (Rules m) + 24) / 25)%nat ∧
  (Rules m = [] → run_calls (refreshQuota Stats Update now s h) = []).
Proof.
  intros Hm Hlive.
  destruct (refreshQuota_live now s h m Hm Hlive)
    as (x' & calls & h' & -> & _ & Hsize & Hnames & Hlen).
  cbn [run_calls]. repeat split; [done..|].
  intros Hnil. rewrite Hnil in Hlen. by apply length_zero_iff_nil.
Qed.

End Batches.
(** *** Manifests never hold a [nil] quota

    The manifests that [NewCentralizedStrategy] and [refreshRule] install
    have no [nil] quota, and [refreshQuota] keeps it so: the condition under
    which the runs of [refreshQuota] are described above holds of every
    manifest the strategy can be in. *)

Lemma quotaLive_grow h h' ext p :
  quotaObjs h' = quotaObjs h ++ ext → quotaLive h p → quotaLive h' p.
Proof.
  intros Hext. unfold quotaLive, loadQuota. destruct p as [i|]; cbn; [|done].
  intros [c Hc]. exists c. rewrite Hext. by apply lookup_app_l_Some.
Qed.

Lemma manifestLive_grow h h' ext m :
  quotaObjs h' = quotaObjs h ++ ext → manifestLive h m → manifestLive h' m.
Proof.
  intros Hext [Hrules Hquotas]. split.
  - eapply Forall_impl; [exact Hrules|]. intros r. by eapply quotaLive_grow.
  - eapply map_Forall_impl; [exact Hquotas|]. intros ? ?. by eapply quotaLive_grow.
Qed.

Lemma NewCentralizedStrategy_live {X} (x : X) id :
  ∃ m, loadManifest (NewCentralizedStrategy x id).2
         (getManifest (NewCentralizedStrategy x id).1) = Some m ∧
       manifestLive (NewCentralizedStrategy x id).2 m.
Proof. exists emptyManifest. split; [done|]. split; [constructor | apply map_Forall_empty]. Qed.

Lemma builtFor_live old h0 h1 ext record rule :
  quotaObjs h1 = quotaObjs h0 ++ ext →
  map_Forall (λ _ p, quotaLive h0 p) (Quotas old) →
  builtFor old h0 h1 record rule → quotaLive h1 (rule_quota rule).
Proof.
  intros Hext Hold (r & _ & _ & Hq).
  destruct (Quotas old !! aws.StringValue (RuleName r)) as [q|] eqn:Hlookup.
  - subst q. eapply quotaLive_grow; [exact Hext|]. by eapply Hold.
  - destruct Hq as (i & -> & _ & Hobj). unfold quotaLive, loadQuota. cbn. by eexists.
Qed.

Lemma refreshRule_live {X} `{xrayAPI X} Less now (s : CentralizedStrategy X) h old :
  loadManifest h (getManifest s) = Some old →
  manifestLive h old →
  ∃ m, loadManifest (refreshRule Less now s h).2
         (getManifest (refreshRule Less now s h).1.2) = Some m ∧
       manifestLive (refreshRule Less now s h).2 m.
Proof.
  intros Hold Hlive. rewrite refreshRule_unfold, Hold. cbn zeta.
  destruct (forRange _ _ _ h) as [[[rules quotas]|] h1] eqn:Hloop;
    destruct (addRecords_store _ _ _ _ _ _ Hloop) as (ext & Hext & Hman).
  - destruct ((GetSamplingRulesPagesWithContext (xray s)).2).
    + exists old. cbn [fst snd]. split; [by unfold loadManifest in *; rewrite Hman|].
      by eapply manifestLive_grow.
    + apply addRecords_spec in Hloop as (rs & -> & -> & Hall). rewrite app_nil_l.
      eexists. cbn [fst snd]. split.
      { unfold loadManifest, getManifest. cbn. by rewrite lookup_app_r, Nat.sub_diag. }
      assert (Forall (λ r, quotaLive h1 (rule_quota r)) rs) as Hrs.
      { apply Forall_forall. intros rule Hrule.
        destruct (Forall2_builtFor_inv _ _ _ _ _ _ Hall Hrule) as (record & _ & Hb).
        eapply builtFor_live; [exact Hext | apply Hlive | exact Hb]. }
      split; cbn [Rules Quotas quotaObjs].
      * eapply Forall_impl; [by rewrite sortStable_perm|]. done.
      * intros name p Hp.
        apply recordQuotas_lookup in Hp as [Hp|(rule & Hrule & _ & <-)];
          [by rewrite lookup_empty in Hp|].
        by eapply Forall_forall in Hrs.
  - exists old. cbn [fst snd]. split; [by unfold loadManifest in *; rewrite Hman|].
    by eapply manifestLive_grow.
Qed.

(** *** ShouldTrace and the age of the manifest *)

(** Whatever the time, a rule of the manifest that matches decides. *)
Lemma ShouldTrace_first_match {X Request Decision L}
    (Match : centralizedRule -> Request -> bool)
    (Sample : centralizedRule -> Store -> Decision * Store)
    (fallbackShouldTrace : L -> Request -> Decision * L)
    (s : CentralizedStrategy X) (fb : L) (h : Store) (req : Request) m r :
  loadManifest h (getManifest s) = Some m →
  firstMatch Match (Rules m) req = Some r →
  (ShouldTrace Match Sample fallbackShouldTrace s fb h req).1.1.1 = (Sample r h).1.
Proof.
  intros Hm Hr. unfold ShouldTrace, getManifest in *. cbn [manifest].
  destruct (manifest s) as [i|]; [|done]. rewrite Hm. cbn. rewrite Hr.
  by destruct (Sample r h).
Qed.

(** C1 does not hold of [ShouldTrace]. The manifest of [staleStrategy] was
    refreshed at the epoch; two hours later, more than [manifestTTL]
    seconds, [ShouldTrace] still answers with the decision of the manifest's
    rule "Default" and not with the decision of the fallback strategy: it
    reads neither the clock nor [RefreshedAt]. *)
Theorem ShouldTrace_ignores_manifestTTL :
  let now := 7200 * 1000000000 in
  let '(s, h) := Fixtures.staleStrategy in
  loadManifest h (getManifest s) = Some Fixtures.staleManifest ∧
  manifestTTL * 1000000000 < now - RefreshedAt Fixtures.staleManifest ∧
  (ShouldTrace Fixtures.matchAny Fixtures.sampleByRule Fixtures.localShouldTrace
     s tt h tt).1.1.1 = Some "Default" ∧
  (Fixtures.localShouldTrace tt tt).1 = None.
Proof. cbv zeta. cbn. repeat split. Qed.

(** *** The test runs, as instances *)

(** [TestCentralizedStrategy_refreshRule]: the second refresh, with the
    wildcarded rule "Test", keeps the quota object of the first. *)
Lemma refreshRule_reuses_quota_by_name_witness :
  let s := setXray Fixtures.afterFirstRefresh.1 (Fixtures.mockRules Fixtures.ruleTestWild) in
  let h := Fixtures.afterFirstRefresh.2 in
  let run := refreshRule Fixtures.lessByPriorityName 200 s h in
  is_Some (loadManifest h (getManifest s)) ∧
  run.1.1 = RulesRefreshed ∧
  ∃ new, loadManifest run.2 (getManifest run.1.2) = Some new ∧
         Quotas new !! "Test" = Some (Some 0%nat) ∧
         loadQuota run.2 (Some 0%nat) = loadQuota h (Some 0%nat).
Proof.
  cbv zeta.
  set (s := setXray Fixtures.afterFirstRefresh.1 (Fixtures.mockRules Fixtures.ruleTestWild)).
  set (h := Fixtures.afterFirstRefresh.2).
  set (run := refreshRule Fixtures.lessByPriorityName 200 s h).
  assert (∃ old, loadManifest h (getManifest s) = Some old ∧
                 Quotas old !! "Test" = Some (Some 0%nat)) as (old & Hold & Hq).
  { eexists. split; [vm_compute; reflexivity | vm_compute; reflexivity]. }
  assert (run = (RulesRefreshed, run.1.2, run.2)) as Hrun by (vm_compute; reflexivity).
  split; [by rewrite Hold|]. split; [by rewrite Hrun|].
  destruct (refreshRule_reuses_quota_by_name Fixtures.lessByPriorityName 200 s run.1.2 h run.2
              old Hold Hrun) as (new & Hnew & Hrecords).
  exists new. split; [exact Hnew|].
  destruct (Hrecords (mkGetSamplingRulesOutput None
                        [mkSamplingRuleRecord None None (Some Fixtures.ruleTestWild)])
                     (mkSamplingRuleRecord None None (Some Fixtures.ruleTestWild))
                     Fixtures.ruleTestWild) as [Hkept _].
  { vm_compute. apply list_elem_of_here. }
  { apply list_elem_of_here. }
  { reflexivity. }
  destruct (Hkept (Some 0%nat) Hq) as (Hentry & _ & _ & Hobj).
  split; [exact Hentry|].
  destruct (loadQuota h (Some 0%nat)) as [c|] eqn:Hc; [exact (Hobj c eq_refl)|].
  vm_compute in Hc. discriminate Hc.
Defined.

(** A refresh whose call fails after one page leaves the empty manifest of
    a new strategy in force. *)
Lemma refreshRule_error_keeps_manifest_witness :
  let '(s, h) := Fixtures.fresh (Fixtures.mockRulesFailing Fixtures.ruleTest) in
  let run := refreshRule Fixtures.lessByPriorityName 100 s h in
  is_Some (GetSamplingRulesPagesWithContext (xray s)).2 ∧
  getManifest run.1.2 = getManifest s ∧
  loadManifest run.2 (getManifest s) = loadManifest h (getManifest s) ∧
  run.1.1 ≠ RulesRefreshed ∧
  ∀ i c, quotaObjs h !! i = Some c → quotaObjs run.2 !! i = Some c.
Proof.
  cbv zeta.
  destruct (Fixtures.fresh (Fixtures.mockRulesFailing Fixtures.ruleTest)) as [s h] eqn:Hfresh.
  assert (is_Some (GetSamplingRulesPagesWithContext (xray s)).2) as Herr.
  { injection Hfresh as <- <-. vm_compute. by eexists. }
  split; [exact Herr|].
  exact (refreshRule_error_keeps_manifest Fixtures.lessByPriorityName 100 s h Herr).
Defined.

(** The manifest of [TestCentralizedStrategy_refreshQuota] has no [nil]
    quota. *)
Lemma manifestFooBar_live m :
  manifestLive (Fixtures.strategyFooBar m).2 Fixtures.manifestFooBar.
Proof.
  split.
  - repeat constructor. by eexists.
  - apply map_Forall_singleton. by eexists.
Defined.

(** A response that names the unknown rule "Unknown" makes
    [refreshQuota] ask for a rule refresh. *)
Lemma refreshQuota_refresh_iff_witness :
  let '(s, h) := Fixtures.strategyFooBar (Fixtures.mockTargets (Some "Unknown") None) in
  let run := refreshQuota Fixtures.Stats Fixtures.Update 100 s h in
  loadManifest h (getManifest s) = Some Fixtures.manifestFooBar ∧
  manifestLive h Fixtures.manifestFooBar ∧
  (run_refresh run = true ↔
   ∃ input resp,
     (input, inl resp) ∈ run_calls run ∧
     ((∃ doc, doc ∈ SamplingTargetDocuments resp ∧
              Quotas Fixtures.manifestFooBar !! aws.StringValue (TargetRuleName doc) = None) ∨
      RefreshedAt Fixtures.manifestFooBar < TimeValue (LastRuleModification resp))) ∧
  run_refresh run = true.
Proof.
  cbv zeta. cbn [Fixtures.strategyFooBar].
  split; [reflexivity|].
  split; [apply (manifestFooBar_live (Fixtures.mockTargets (Some "Unknown") None))|].
  split; [|vm_compute; reflexivity].
  apply (refreshQuota_refresh_iff Fixtures.Stats Fixtures.Update 100
           (Fixtures.strategyFooBar (Fixtures.mockTargets (Some "Unknown") None)).1
           (Fixtures.strategyFooBar (Fixtures.mockTargets (Some "Unknown") None)).2
           Fixtures.manifestFooBar eq_refl
           (manifestFooBar_live (Fixtures.mockTargets (Some "Unknown") None))).
Defined.

(** [TestCentralizedStrategy_refreshQuota]: one rule, one call with the one
    document of "FooBar". *)
Lemma refreshQuota_batches_witness :
  let '(s, h) := Fixtures.strategyFooBar (Fixtures.mockTargets (Some "FooBar") None) in
  let run := refreshQuota Fixtures.Stats Fixtures.Update 100 s h in
  loadManifest h (getManifest s) = Some Fixtures.manifestFooBar ∧
  manifestLive h Fixtures.manifestFooBar ∧
  Forall (λ c, (length (SamplingStatisticsDocuments c.1) ≤ 25)%nat) (run_calls run) ∧
  map StatRuleName (concat (map (λ c, SamplingStatisticsDocuments c.1) (run_calls run)))
    = ["FooBar"] ∧
  length (run_calls run) = 1%nat.
Proof.
  cbv zeta. cbn [Fixtures.strategyFooBar].
  split; [reflexivity|].
  split; [apply (manifestFooBar_live (Fixtures.mockTargets (Some "FooBar") None))|].
  destruct (refreshQuota_batches Fixtures.Stats Fixtures.Update 100
              (Fixtures.strategyFooBar (Fixtures.mockTargets (Some "FooBar") None)).1
              (Fixtures.strategyFooBar (Fixtures.mockTargets (Some "FooBar") None)).2
              Fixtures.manifestFooBar eq_refl
              (manifestFooBar_live (Fixtures.mockTargets (Some "FooBar") None)))
    as (Hsize & Hnames & Hlen & _).
  split; [exact Hsize|]. split; [exact Hnames | exact Hlen].
Defined.

(** *** What a run of [refreshQuota] never does *)
Section QuotaFrames.

Variable Stats : centralizedQuota -> quotaStats * centralizedQuota.
Variable Update : centralizedQuota -> samplingTargetDocument -> centralizedQuota.

Lemma storeQuota_other h i j q : i ≠ j → quotaObjs (storeQuota h i q) !! j = quotaObjs h !! j.
Proof. intros Hne. by apply list_lookup_insert_ne. Qed.

Lemma callStats_any p h :
  sameShape h (callStats Stats p h).2 ∧
  ∀ j, p ≠ Some j → quotaObjs (callStats Stats p h).2 !! j = quotaObjs h !! j.
Proof.
  unfold callStats. destruct p as [i|]; [|done].
  destruct (quotaObjs h !! i) as [q|]; [|done]. destruct (Stats q) as [st q'].
  split; [apply sameShape_storeQuota|]. intros j Hj. apply storeQuota_other. congruence.
Qed.

Lemma callUpdate_any p doc h :
  sameShape h (callUpdate Update p doc h).2 ∧
  ∀ j, p ≠ Some j → quotaObjs (callUpdate Update p doc h).2 !! j = quotaObjs h !! j.
Proof.
  unfold callUpdate. destruct p as [i|]; [|done].
  destruct (quotaObjs h !! i) as [q|]; [|done].
  split; [apply sameShape_storeQuota|]. intros j Hj. apply storeQuota_other. congruence.
Qed.

(** The statistics loop touches the quotas of the rules it visits and no
    other object; its documents carry the client id and the time it was
    given. *)
Lemma addStats_any id now rules acc h :
  sameShape h (forRange (addStat Stats id now) rules acc h).2 ∧
  (∀ j, (∀ r, r ∈ rules → rule_quota r ≠ Some j) →
        quotaObjs (forRange (addStat Stats id now) rules acc h).2 !! j = quotaObjs h !! j) ∧
  (∀ docs', (forRange (addStat Stats id now) rules acc h).1 = Some docs' →
     ∃ docs, docs' = acc ++ docs ∧
             Forall (λ d, ClientID d = id ∧ Timestamp d = now) docs).
Proof.
  revert acc h. induction rules as [|r rules IH]; intros acc h.
  - cbn. split; [done|]. split; [done|]. intros docs' [= <-]. exists []. by rewrite app_nil_r.
  - rewrite forRange_cons.
    pose proof (callStats_any (rule_quota r) h) as [Hshape Hframe].
    destruct (addStat Stats id now acc r h) as [res hm] eqn:Hstep.
    unfold addStat, mbind, M_bind in Hstep.
    destruct (callStats Stats (rule_quota r) h) as [[st|] hm0]; cbn [snd] in *;
      unfold mret, M_ret in Hstep; injection Hstep as <- <-.
    + destruct (IH (acc ++ [mkSamplingStatisticsDocument (stat_borrowed st) id
                              (stat_requests st) (ruleName r) (stat_sampled st) now]) hm0)
        as (Hshape' & Hframe' & Hdocs).
      split; [by eapply sameShape_trans|]. split.
      * intros j Hj. rewrite Hframe'.
        -- apply Hframe, Hj, list_elem_of_here.
        -- intros r' Hr'. apply Hj. by apply list_elem_of_further.
      * intros docs' Hres. destruct (Hdocs docs' Hres) as (docs & -> & Hall).
        eexists (_ :: docs). split; [by rewrite <- app_assoc|]. by constructor.
    + split; [done|]. split; [|done]. intros j Hj. apply Hframe, Hj, list_elem_of_here.
Qed.

(** The loop over the documents of a response touches quotas of the
    manifest's map and no other object. *)
Lemma applyTargets_any m docs needRefresh h :
  sameShape h (forRange (applyTarget Update m) docs needRefresh h).2 ∧
  ∀ j, (∀ name, Quotas m !! name ≠ Some (Some j)) →
       quotaObjs (forRange (applyTarget Update m) docs needRefresh h).2 !! j = quotaObjs h !! j.
Proof.
  revert needRefresh h. induction docs as [|doc docs IH]; intros needRefresh h; [done|].
  rewrite forRange_cons.
  destruct (applyTarget Update m needRefresh doc h) as [res hm] eqn:Hstep.
  unfold applyTarget in Hstep.
  destruct (Quotas m !! aws.StringValue (TargetRuleName doc)) as [p|] eqn:Hp.
  - unfold mbind, M_bind in Hstep. pose proof (callUpdate_any p doc h) as [Hshape Hframe].
    destruct (callUpdate Update p doc h) as [[[]|] hm0]; cbn [snd] in *;
      unfold mret, M_ret in Hstep; injection Hstep as <- <-.
    + destruct (IH needRefresh hm0) as [Hshape' Hframe'].
      split; [by eapply sameShape_trans|]. intros j Hj. rewrite Hframe' by done.
      apply Hframe. intros ->. by eapply Hj.
    + split; [done|]. intros j Hj. apply Hframe. intros ->. by eapply Hj.
  - unfold mret, M_ret in Hstep. injection Hstep as <- <-. apply IH.
Qed.

(** The batch loop, however it ends: it only adds calls, each input is the
    next batch of the documents, and it touches no object outside the
    manifest's map. *)
Lemma sendBatches_any {X} `{xrayAPI X} m stats (x : X) needRefresh calls h :
  ∃ new rest,
    (sendBatches Update m stats x needRefresh calls h).1.2 = calls ++ new ∧
    concat (map (λ c, SamplingStatisticsDocuments c.1) new) ++ rest = stats ∧
    sameShape h (sendBatches Update m stats x needRefresh calls h).2 ∧
    ∀ j, (∀ name, Quotas m !! name ≠ Some (Some j)) →
         quotaObjs (sendBatches Update m stats x needRefresh calls h).2 !! j = quotaObjs h !! j.
Proof.
  funelim (sendBatches Update m stats x needRefresh calls h).
  - exists [], []. by rewrite app_nil_r.
  - destruct H0 as (new & rest & Hcalls & Hcat & Hshape & Hframe).
    exists ((mkGetSamplingTargetsInput (take (batchLen (d :: ds)) (d :: ds)), inr err) :: new),
      rest.
    rewrite Hcalls, <- app_assoc. split; [done|]. split; [|done].
    cbn [map concat fst SamplingStatisticsDocuments]. rewrite <- app_assoc, Hcat.
    apply take_drop.
  - pose proof (applyTargets_any manifest0 (SamplingTargetDocuments resp) needRefresh h)
      as [Hshape1 Hframe1]. rewrite Heq in Hshape1, Hframe1. cbn [snd] in *.
    destruct H0 as (new & rest & Hcalls & Hcat & Hshape & Hframe).
    exists ((mkGetSamplingTargetsInput (take (batchLen (d :: ds)) (d :: ds)), inl resp) :: new),
      rest.
    rewrite Hcalls, <- app_assoc. split; [done|]. split; [|split].
    + cbn [map concat fst SamplingStatisticsDocuments]. rewrite <- app_assoc, Hcat.
      apply take_drop.
    + by eapply sameShape_trans.
    + intros j Hj. rewrite Hframe by done. by apply Hframe1.
  - pose proof (applyTargets_any manifest0 (SamplingTargetDocuments resp) needRefresh h)
      as [Hshape1 Hframe1]. rewrite Heq in Hshape1, Hframe1. cbn [snd] in *.
    exists [(mkGetSamplingTargetsInput (take (batchLen (d :: ds)) (d :: ds)), inl resp)],
      (drop (batchLen (d :: ds)) (d :: ds)).
    cbn [fst snd]. split; [done|]. split; [|done].
    cbn [map concat fst SamplingStatisticsDocuments]. rewrite app_nil_r. apply take_drop.
Qed.

(** A run of [refreshQuota], however it ends. *)
Lemma refreshQuota_any {X} `{xrayAPI X} now (s : CentralizedStrategy X) h :
  getManifest (run_strategy (refreshQuota Stats Update now s h)) = getManifest s ∧
  clientID (run_strategy (refreshQuota Stats Update now s h)) = clientID s ∧
  sameShape h (run_store (refreshQuota Stats Update now s h)) ∧
  Forall (λ c, Forall (λ d, ClientID d = clientID s ∧ Timestamp d = now)
                 (SamplingStatisticsDocuments c.1))
         (run_calls (refreshQuota Stats Update now s h)) ∧
  ∀ m j, loadManifest h (getManifest s) = Some m →
         (∀ r, r ∈ Rules m → rule_quota r ≠ Some j) →
         (∀ name, Quotas m !! name ≠ Some (Some j)) →
         quotaObjs (run_store (refreshQuota Stats Update now s h)) !! j = quotaObjs h !! j.
Proof.
  unfold refreshQuota. destruct (loadManifest h (getManifest s)) as [m|] eqn:Hm; [|done].
  pose proof (addStats_any (clientID s) now (Rules m) [] h) as (Hshape1 & Hframe1 & Hdocs).
  destruct (forRange (addStat Stats (clientID s) now) (Rules m) [] h) as [[stats|] h1];
    cbn [fst snd] in *.
  - destruct (Hdocs stats eq_refl) as (docs & -> & Hall). rewrite app_nil_l in *.
    destruct (sendBatches_any m docs (xray s) false [] h1)
      as (new & rest & Hcalls & Hcat & Hshape & Hframe).
    destruct (sendBatches Update m docs (xray s) false [] h1) as [[[res x] calls] h'].
    cbn [fst snd] in *. rewrite app_nil_l in Hcalls. subst calls.
    assert (Forall (λ c, Forall (λ d, ClientID d = clientID s ∧ Timestamp d = now)
                           (SamplingStatisticsDocuments c.1)) new) as Hnew.
    { apply Forall_forall. intros c Hc. apply Forall_forall. intros d Hd.
      eapply Forall_forall in Hall; [exact Hall|]. rewrite <- Hcat.
      apply elem_of_app. left. apply list_elem_of_In, in_concat.
      exists (SamplingStatisticsDocuments c.1). split; [|by apply list_elem_of_In].
      apply in_map_iff. exists c. split; [done | by apply list_elem_of_In]. }
    destruct res; cbn [run_strategy run_store run_calls];
      (split; [done|]; split; [done|]; split; [by eapply sameShape_trans|]; split; [done|];
       intros m' j [= <-] Hrules Hquotas; rewrite Hframe by done; by apply Hframe1).
  - split; [done|]. split; [done|]. split; [done|]. split; [constructor|].
    intros m' j [= <-] Hrules _. by apply Hframe1.
Qed.

End QuotaFrames.

(** X1. A run of [refreshQuota], whether it ends normally or in a
    recovered panic, leaves the strategy's manifest pointer and client id as
    they were, allocates no quota object and changes no manifest object:
    every manifest pointer reads the same manifest afterwards. *)
Theorem refreshQuota_keeps_manifest_in_force {X} `{xrayAPI X}
    (Stats : centralizedQuota -> quotaStats * centralizedQuota)
    (Update : centralizedQuota -> samplingTargetDocument -> centralizedQuota)
    now (s : CentralizedStrategy X) (h : Store) :
  getManifest (run_strategy (refreshQuota Stats Update now s h)) = getManifest s ∧
  clientID (run_strategy (refreshQuota Stats Update now s h)) = clientID s ∧
  length (quotaObjs (run_store (refreshQuota Stats Update now s h))) = length (quotaObjs h) ∧
  (∀ p, loadManifest (run_store (refreshQuota Stats Update now s h)) p = loadManifest h p) ∧
  (run_panicked (refreshQuota Stats Update now s h) = true →
   run_refresh (refreshQuota Stats Update now s h) = false).
Proof.
  destruct (refreshQuota_any Stats Update now s h) as (Hman & Hid & [Hlen Hobjs] & _).
  split; [done|]. split; [done|]. split; [done|]. split.
  - intros p. unfold loadManifest. by rewrite Hobjs.
  - unfold refreshQuota. destruct (loadManifest h (getManifest s)); [|done].
    destruct (forRange _ _ _ h) as [[stats|] h1]; [|done].
    by destruct (sendBatches _ _ _ _ _ _ h1) as [[[[need|] x] calls] h'].
Qed.

(** X2. A run of [refreshQuota] changes only quota objects that the
    manifest in force points to, from a rule or from its [Quotas] map: any
    other quota object of the store, such as the quota of a rule that an
    earlier refresh dropped, is the same afterwards. *)
Theorem refreshQuota_touches_manifest_quotas_only {X} `{xrayAPI X}
    (Stats : centralizedQuota -> quotaStats * centralizedQuota)
    (Update : centralizedQuota -> samplingTargetDocument -> centralizedQuota)
    now (s : CentralizedStrategy X) (h : Store) (m : centralizedManifest) (j : nat) :
  loadManifest h (getManifest s) = Some m →
  (∀ r, r ∈ Rules m → rule_quota r ≠ Some j) →
  (∀ name, Quotas m !! name ≠ Some (Some j)) →
  quotaObjs (run_store (refreshQuota Stats Update now s h)) !! j = quotaObjs h !! j.
Proof.
  intros Hm Hrules Hquotas.
  destruct (refreshQuota_any Stats Update now s h) as (_ & _ & _ & _ & Hframe).
  by apply (Hframe m).
Qed.

(** X3. Every statistics document that a run of [refreshQuota] submits, in
    whichever call, carries the strategy's client id and the one time read
    at the start of the run. *)
Theorem refreshQuota_documents_stamped {X} `{xrayAPI X}
    (Stats : centralizedQuota -> quotaStats * centralizedQuota)
    (Update : centralizedQuota -> samplingTargetDocument -> centralizedQuota)
    now (s : CentralizedStrategy X) (h : Store) :
  ∀ c d, c ∈ run_calls (refreshQuota Stats Update now s h) →
         d ∈ SamplingStatisticsDocuments c.1 →
         ClientID d = clientID s ∧ Timestamp d = now.
Proof.
  destruct (refreshQuota_any Stats Update now s h) as (_ & _ & _ & Hdocs & _).
  intros c d Hc Hd. eapply Forall_forall in Hdocs; [|exact Hc].
  by eapply Forall_forall in Hdocs.
Qed.

(** [TestCentralizedStrategy_refreshQuota]: the one document of the one
    call carries the client id of the strategy and the time of the run. *)
Lemma refreshQuota_documents_stamped_witness :
  let s := (Fixtures.strategyFooBar (Fixtures.mockTargets (Some "FooBar") None)).1 in
  let h := (Fixtures.strategyFooBar (Fixtures.mockTargets (Some "FooBar") None)).2 in
  match run_calls (refreshQuota Fixtures.Stats Fixtures.Update 100 s h) with
  | c :: _ =>
      match SamplingStatisticsDocuments c.1 with
      | d :: _ => ClientID d = clientID s ∧ Timestamp d = 100
      | [] => False
      end
  | [] => False
  end.
Proof.
  cbv zeta.
  set (s := (Fixtures.strategyFooBar (Fixtures.mockTargets (Some "FooBar") None)).1).
  set (h := (Fixtures.strategyFooBar (Fixtures.mockTargets (Some "FooBar") None)).2).
  pose proof (refreshQuota_documents_stamped Fixtures.Stats Fixtures.Update 100 s h) as Hst.
  destruct (run_calls (refreshQuota Fixtures.Stats Fixtures.Update 100 s h)) as [|c cs] eqn:Hc;
    [vm_compute in Hc; discriminate Hc|].
  destruct (SamplingStatisticsDocuments c.1) as [|d ds] eqn:Hd.
  - vm_compute in Hc. injection Hc as <- _. discriminate Hd.
  - apply (Hst c d); [apply list_elem_of_here | rewrite Hd; apply list_elem_of_here].
Defined.

(** A store with a quota object that the manifest of
    [TestCentralizedStrategy_refreshQuota] does not point to is left with
    that object as it was. *)
Lemma refreshQuota_touches_manifest_quotas_only_witness :
  let s := (Fixtures.strategyFooBar (Fixtures.mockTargets (Some "FooBar") None)).1 in
  let h := mkStore [Fixtures.quotaFooBar; Fixtures.quotaFooBar] [Fixtures.manifestFooBar] in
  loadManifest h (getManifest s) = Some Fixtures.manifestFooBar ∧
  quotaObjs (run_store (refreshQuota Fixtures.Stats Fixtures.Update 100 s h)) !! 1%nat
    = Some Fixtures.quotaFooBar ∧
  quotaObjs (run_store (refreshQuota Fixtures.Stats Fixtures.Update 100 s h)) !! 0%nat
    ≠ Some Fixtures.quotaFooBar.
Proof.
  cbv zeta. split; [reflexivity|]. split; [|vm_compute; discriminate].
  apply (refreshQuota_touches_manifest_quotas_only Fixtures.Stats Fixtures.Update 100
           (Fixtures.strategyFooBar (Fixtures.mockTargets (Some "FooBar") None)).1
           (mkStore [Fixtures.quotaFooBar; Fixtures.quotaFooBar] [Fixtures.manifestFooBar])
           Fixtures.manifestFooBar 1 eq_refl).
  - intros r Hr. apply list_elem_of_singleton in Hr. by subst r.
  - intros name Hname. unfold Fixtures.manifestFooBar in Hname. cbn [Quotas] in Hname.
    apply lookup_singleton_Some in Hname as [_ Heq]. discriminate Heq.
Defined.

(** *** More on the runs of [refreshRule] *)

(** X4. A run of [refreshRule], however it ends, only appends to the
    store: the quota objects and manifest objects that existed are the same
    afterwards, at most one manifest object is added, and the client id is
    kept; unless the run ends by installing a manifest, the strategy's
    manifest pointer is kept and no manifest object is added. *)
Theorem refreshRule_appends_only {X} `{xrayAPI X} Less now
    (s : CentralizedStrategy X) (h : Store) :
  (∃ ext, quotaObjs (refreshRule Less now s h).2 = quotaObjs h ++ ext) ∧
  (∃ ext, manifestObjs (refreshRule Less now s h).2 = manifestObjs h ++ ext ∧
          (length ext ≤ 1)%nat ∧
          ((refreshRule Less now s h).1.1 ≠ RulesRefreshed → ext = [])) ∧
  clientID (refreshRule Less now s h).1.2 = clientID s ∧
  ((refreshRule Less now s h).1.1 ≠ RulesRefreshed →
   getManifest (refreshRule Less now s h).1.2 = getManifest s).
Proof.
  rewrite refreshRule_unfold.
  destruct (loadManifest h (getManifest s)) as [old|].
  - cbn zeta. destruct (forRange _ _ _ h) as [[[rules quotas]|] h1] eqn:Hloop;
      destruct (addRecords_store _ _ _ _ _ _ Hloop) as (ext & Hext & Hman).
    + destruct ((GetSamplingRulesPagesWithContext (xray s)).2); cbn [fst snd quotaObjs manifestObjs].
      * split; [by exists ext|]. split; [|done]. exists []. rewrite app_nil_r.
        split; [done|]. split; [cbn; lia | done].
      * split; [by exists ext|]. split; [|done]. eexists [_]. rewrite Hman.
        split; [done|]. split; [cbn; lia | done].
    + cbn [fst snd]. split; [by exists ext|]. split; [|done].
      exists []. rewrite app_nil_r. split; [done|]. split; [cbn; lia | done].
  - cbn [fst snd]. split; [exists []; by rewrite app_nil_r|]. split; [|done].
    exists []. rewrite app_nil_r. split; [done|]. split; [cbn; lia | done].
Qed.

(** X5. When a run of [refreshRule] installs a manifest, the manifest is a
    new object (the one that was in force is still what its pointer reads),
    its [RefreshedAt] is the time of the run, its rules are the rules built
    from the returned records, one per record, reordered by the sort, and
    its [Quotas] map has an entry exactly for the names of these rules: the
    entries of the old map for rules that are no longer returned are gone. *)
Theorem refreshRule_installs {X} `{xrayAPI X} Less now
    (s s' : CentralizedStrategy X) (h h' : Store) :
  refreshRule Less now s h = (RulesRefreshed, s', h') →
  ∃ new rs,
    getManifest s' = Some (length (manifestObjs h)) ∧
    loadManifest h' (getManifest s') = Some new ∧
    loadManifest h' (getManifest s) = loadManifest h (getManifest s) ∧
    RefreshedAt new = now ∧
    Rules new ≡ₚ rs ∧
    Forall2 (λ record rule, ∃ r, SamplingRule record = Some r ∧
                                 rule = ruleOf r (rule_quota rule))
            (concat (map SamplingRuleRecords (GetSamplingRulesPagesWithContext (xray s)).1.2))
            rs ∧
    ∀ name, is_Some (Quotas new !! name) ↔ ∃ rule, rule ∈ Rules new ∧ ruleName rule = name.
Proof.
  rewrite refreshRule_unfold.
  destruct (loadManifest h (getManifest s)) as [old|] eqn:Hold; [|done]. cbn zeta.
  destruct (forRange _ _ _ h) as [[[rules quotas]|] h1] eqn:Hloop; [|done].
  destruct ((GetSamplingRulesPagesWithContext (xray s)).2); [done|].
  intros [= <- <-].
  destruct (addRecords_store _ _ _ _ _ _ Hloop) as (ext & Hext & Hman).
  apply addRecords_spec in Hloop as (rs & -> & -> & Hall). rewrite app_nil_l.
  eexists _, rs. split; [by rewrite Hman|]. split.
  { unfold loadManifest, getManifest. cbn. by rewrite lookup_app_r, Nat.sub_diag. }
  split.
  { unfold loadManifest, getManifest in *. destruct (manifest s) as [i|]; [|done].
    cbn in *. apply lookup_app_l_Some. by rewrite Hman. }
  split; [done|]. split; [apply sortStable_perm|]. split.
  { eapply Forall2_impl; [exact Hall|]. intros record rule (r & Hr & Hrule & _). by exists r. }
  cbn [Rules Quotas]. intros name. split.
  - intros [p Hp]. apply recordQuotas_lookup in Hp as [Hp|(rule & Hrule & Hname & _)];
      [by rewrite lookup_empty in Hp|].
    exists rule. split; [by rewrite sortStable_perm | done].
  - intros (rule & Hrule & <-). apply recordQuotas_is_Some. by rewrite <- (sortStable_perm Less).
Qed.

(** The first refresh of [TestCentralizedStrategy_refreshRule]. *)
Lemma refreshRule_installs_witness :
  let '(s, h) := Fixtures.fresh (Fixtures.mockRules Fixtures.ruleTest) in
  let run := refreshRule Fixtures.lessByPriorityName 100 s h in
  run.1.1 = RulesRefreshed ∧
  ∃ new, loadManifest run.2 (getManifest run.1.2) = Some new ∧
         RefreshedAt new = 100 ∧ length (Rules new) = 1%nat.
Proof.
  cbv zeta.
  destruct (Fixtures.fresh (Fixtures.mockRules Fixtures.ruleTest)) as [s h] eqn:Hfresh.
  set (run := refreshRule Fixtures.lessByPriorityName 100 s h).
  assert (run = (RulesRefreshed, run.1.2, run.2)) as Hrun.
  { injection Hfresh as <- <-. vm_compute. reflexivity. }
  split; [by rewrite Hrun|].
  destruct (refreshRule_installs Fixtures.lessByPriorityName 100 s run.1.2 h run.2 Hrun)
    as (new & rs & _ & Hnew & _ & Hat & Hperm & Hall & _).
  exists new. split; [exact Hnew|]. split; [exact Hat|].
  rewrite Hperm, <- (Forall2_length _ _ _ Hall).
  injection Hfresh as <- <-. reflexivity.
Defined.

Lemma insertStable_sorted Less x l :
  (∀ a b, Less a b = true → Less b a = false) →
  (∀ a b c, Less a c = true → Less a b = true ∨ Less b c = true) →
  StronglySorted (λ a b, Less b a = false) l →
  StronglySorted (λ a b, Less b a = false) (insertStable Less x l).
Proof.
  intros Hasym Hneg. induction l as [|y l IH]; intros Hsorted; cbn.
  - repeat constructor.
  - apply StronglySorted_inv in Hsorted as [Hl Hy].
    destruct (Less y x) eqn:Hyx.
    + constructor; [by apply IH|].
      rewrite insertStable_perm. constructor; [by apply Hasym | done].
    + constructor; [by constructor|]. constructor; [done|].
      eapply Forall_impl; [exact Hy|]. cbn. intros z Hzy.
      destruct (Less z x) eqn:Hzx; [|done].
      destruct (Hneg z y x Hzx) as [H1|H1]; congruence.
Qed.

(** X6. When [centralizedRuleSlice.Less] is a strict weak order (no two
    rules are each less than the other, and a rule less than another is
    less than, or has below it, any third), the rules of a manifest that
    [refreshRule] installs are in order: no rule is less than a rule before
    it. *)
Theorem refreshRule_sorted {X} `{xrayAPI X} Less now
    (s s' : CentralizedStrategy X) (h h' : Store) :
  (∀ a b, Less a b = true → Less b a = false) →
  (∀ a b c, Less a c = true → Less a b = true ∨ Less b c = true) →
  refreshRule Less now s h = (RulesRefreshed, s', h') →
  ∃ new, loadManifest h' (getManifest s') = Some new ∧
         StronglySorted (λ a b, Less b a = false) (Rules new).
Proof.
  intros Hasym Hneg. rewrite refreshRule_unfold.
  destruct (loadManifest h (getManifest s)) as [old|]; [|done]. cbn zeta.
  destruct (forRange _ _ _ h) as [[[rules quotas]|] h1]; [|done].
  destruct ((GetSamplingRulesPagesWithContext (xray s)).2); [done|].
  intros [= <- <-]. eexists. split.
  { unfold loadManifest, getManifest. cbn. by rewrite lookup_app_r, Nat.sub_diag. }
  cbn [Rules]. induction rules as [|r rules IH]; [constructor|].
  by apply insertStable_sorted.
Qed.

(** [lessByPriority] is a strict weak order. *)
Lemma lessByPriority_order :
  (∀ a b, Fixtures.lessByPriority a b = true → Fixtures.lessByPriority b a = false) ∧
  (∀ a b c, Fixtures.lessByPriority a c = true →
            Fixtures.lessByPriority a b = true ∨ Fixtures.lessByPriority b c = true).
Proof.
  unfold Fixtures.lessByPriority. split.
  - intros a b Hab. apply Z.ltb_lt in Hab. apply Z.ltb_ge. lia.
  - intros a b c Hac. apply Z.ltb_lt in Hac.
    destruct (Z.ltb_spec (priority a) (priority b)); [by left|].
    right. apply Z.ltb_lt. lia.
Defined.

(** The first refresh of [TestCentralizedStrategy_refreshRule], with the
    rules ordered by priority. *)
Lemma refreshRule_sorted_witness :
  let '(s, h) := Fixtures.fresh (Fixtures.mockRules Fixtures.ruleTest) in
  let run := refreshRule Fixtures.lessByPriority 100 s h in
  run.1.1 = RulesRefreshed ∧
  ∃ new, loadManifest run.2 (getManifest run.1.2) = Some new ∧
         StronglySorted (λ a b, Fixtures.lessByPriority b a = false) (Rules new).
Proof.
  cbv zeta.
  destruct (Fixtures.fresh (Fixtures.mockRules Fixtures.ruleTest)) as [s h] eqn:Hfresh.
  set (run := refreshRule Fixtures.lessByPriority 100 s h).
  assert (run = (RulesRefreshed, run.1.2, run.2)) as Hrun.
  { injection Hfresh as <- <-. vm_compute. reflexivity. }
  split; [by rewrite Hrun|].
  exact (refreshRule_sorted Fixtures.lessByPriority 100 s run.1.2 h run.2
           (proj1 lessByPriority_order) (proj2 lessByPriority_order) Hrun).
Defined.





(** A record without a rule makes the record loop panic. *)
Lemma addRecords_nil_record m recs acc h record :
  record ∈ recs → SamplingRule record = None →
  (forRange (addRecord m) recs acc h).1 = None.
Proof.
  intros Hin Hnil. revert acc h.
  induction recs as [|record' recs IH]; intros acc h; [by apply elem_of_nil in Hin|].
  rewrite forRange_cons. unfold addRecord at 1.
  destruct (SamplingRule record') as [r|] eqn:Hr; [|done].
  unfold mbind, M_bind. destruct (quotaFor m r h) as [res hm] eqn:Hq.
  apply quotaFor_spec in Hq as (q & ext & -> & _). unfold mret, M_ret.
  apply IH. apply elem_of_cons in Hin as [->|Hin]; [congruence | done].
Qed.

(** X8. When one of the returned records has no [SamplingRule], a run of
    [refreshRule] over a manifest ends in the recovered panic, whatever the
    other records and the returned error are: no manifest is installed and
    the manifest in force stays. *)
Theorem refreshRule_nil_record_panics {X} `{xrayAPI X} Less now
    (s : CentralizedStrategy X) (h : Store) out record :
  is_Some (loadManifest h (getManifest s)) →
  out ∈ (GetSamplingRulesPagesWithContext (xray s)).1.2 →
  record ∈ SamplingRuleRecords out →
  SamplingRule record = None →
  (refreshRule Less now s h).1.1 = RulesPanicked ∧
  getManifest (refreshRule Less now s h).1.2 = getManifest s ∧
  loadManifest (refreshRule Less now s h).2 (getManifest s) = loadManifest h (getManifest s).
Proof.
  intros [old Hold] Hout Hrecord Hnil. rewrite refreshRule_unfold, Hold. cbn zeta.
  assert (record ∈ concat (map SamplingRuleRecords
            (GetSamplingRulesPagesWithContext (xray s)).1.2)) as Hin.
  { apply list_elem_of_In, in_concat. exists (SamplingRuleRecords out).
    split; [apply in_map|]; by apply list_elem_of_In. }
  pose proof (addRecords_nil_record old _ ([], ∅) h record Hin Hnil) as Hpanic.
  destruct (forRange _ _ _ h) as [[acc|] h1] eqn:Hloop; [done|].
  destruct (addRecords_store _ _ _ _ _ _ Hloop) as (ext & _ & Hman).
  cbn [fst snd]. split; [done|]. split; [done|].
  unfold loadManifest in *. by rewrite Hman.
Qed.

(** A page with a rule and then a record without one. *)
Lemma refreshRule_nil_record_panics_witness :
  let '(s, h) := Fixtures.fresh Fixtures.mockNilRecord in
  is_Some (loadManifest h (getManifest s)) ∧
  (refreshRule Fixtures.lessByPriorityName 100 s h).1.1 = RulesPanicked ∧
  getManifest (refreshRule Fixtures.lessByPriorityName 100 s h).1.2 = getManifest s.
Proof.
  destruct (Fixtures.fresh Fixtures.mockNilRecord) as [s h] eqn:Hfresh.
  assert (is_Some (loadManifest h (getManifest s))) as Hm.
  { injection Hfresh as <- <-. by eexists. }
  split; [exact Hm|].
  destruct (refreshRule_nil_record_panics Fixtures.lessByPriorityName 100 s h
              (mkGetSamplingRulesOutput None
                 [mkSamplingRuleRecord None None (Some Fixtures.ruleTest);
                  mkSamplingRuleRecord None None None])
              (mkSamplingRuleRecord None None None) Hm) as (Hexit & Hptr & _).
  - injection Hfresh as <- <-. apply list_elem_of_here.
  - apply list_elem_of_further, list_elem_of_here.
  - reflexivity.
  - by split.
Defined.

(** *** The states the strategy can be in *)

Lemma runRefreshes_live {X} `{xrayAPI X} Less Stats Update ops
    (s : CentralizedStrategy X) (h : Store) m :
  loadManifest h (getManifest s) = Some m →
  manifestLive h m →
  (∃ m', loadManifest (runRefreshes Less Stats Update ops s h).1.2
           (getManifest (runRefreshes Less Stats Update ops s h).1.1) = Some m' ∧
         manifestLive (runRefreshes Less Stats Update ops s h).1.2 m') ∧
  Forall (λ exit, ∀ asked, exit ≠ QuotaExit true asked)
         (runRefreshes Less Stats Update ops s h).2.
Proof.
  revert s h m. induction ops as [|op ops IH]; intros s h m Hm Hlive.
  - cbn. split; [by exists m | constructor].
  - cbn [runRefreshes]. destruct op as [now|now]; cbn [runRefresh].
    + destruct (refreshRule_live Less now s h m Hm Hlive) as (m' & Hm' & Hlive').
      destruct (refreshRule Less now s h) as [[exit s'] h']. cbn [fst snd] in *.
      destruct (IH s' h' m' Hm' Hlive') as [Hend Hexits].
      destruct (runRefreshes Less Stats Update ops s' h') as [[s'' h''] exits].
      cbn [fst snd] in *. split; [done|]. by constructor.
    + destruct (refreshQuota_keeps_live Stats Update now s h m Hm Hlive)
        as (Hm' & Hlive' & Hpanic).
      destruct (IH _ _ m Hm' Hlive') as [Hend Hexits].
      destruct (runRefreshes Less Stats Update ops _ _) as [[s'' h''] exits].
      cbn [fst snd] in *. split; [done|]. constructor; [|done].
      rewrite Hpanic. done.
Qed.

(** X9. From the strategy that [NewCentralizedStrategy] returns, after any
    runs of [refreshRule] and [refreshQuota] in any order, with any answers
    of the service, the strategy's manifest pointer reads a manifest without
    [nil] quota, in its rules and in its map; and no run of [refreshQuota]
    ends in a panic. *)
Theorem refreshes_keep_manifest_sound {X} `{xrayAPI X}
    (Less : centralizedRule -> centralizedRule -> bool)
    (Stats : centralizedQuota -> quotaStats * centralizedQuota)
    (Update : centralizedQuota -> samplingTargetDocument -> centralizedQuota)
    (x : X) (id : string) (ops : list refresh) :
  let run := runRefreshes Less Stats Update ops
               (NewCentralizedStrategy x id).1 (NewCentralizedStrategy x id).2 in
  (∃ m, loadManifest run.1.2 (getManifest run.1.1) = Some m ∧
        Forall (λ r, is_Some (loadQuota run.1.2 (rule_quota r))) (Rules m) ∧
        map_Forall (λ _ p, is_Some (loadQuota run.1.2 p)) (Quotas m)) ∧
  Forall (λ exit, ∀ asked, exit ≠ QuotaExit true asked) run.2.
Proof.
  cbv zeta. destruct (NewCentralizedStrategy_live x id) as (m & Hm & Hlive).
  destruct (runRefreshes_live Less Stats Update ops _ _ m Hm Hlive)
    as [(m' & Hm' & Hrules & Hquotas) Hexits].
  split; [by exists m' | done].
Qed.

(** *** The decisions of [ShouldTrace] *)
Section Decisions.

Context {X Request Decision L : Type}.
Variable Match : centralizedRule -> Request -> bool.
Variable Sample : centralizedRule -> Store -> Decision * Store.
Variable fallbackShouldTrace : L -> Request -> Decision * L.

Lemma firstMatch_split rules req pre r post :
  rules = pre ++ r :: post →
  Forall (λ r', Match r' req = false) pre →
  Match r req = true →
  firstMatch Match rules req = Some r.
Proof.
  intros -> Hpre Hr. induction Hpre as [|r' pre Hr' _ IH]; cbn.
  - by rewrite Hr.
  - by rewrite Hr'.
Qed.

Lemma firstMatch_none rules req :
  Forall (λ r, Match r req = false) rules → firstMatch Match rules req = None.
Proof. induction 1 as [|r rules Hr _ IH]; cbn; [done|]. by rewrite Hr. Qed.

(** X10. When the manifest in force has a rule that matches the request
    and no rule before it does, [ShouldTrace] returns the decision of that
    rule's [Sample], whatever the rules after it: it leaves the store as
    [Sample] leaves it, does not ask the fallback strategy, keeps the
    manifest pointer and marks the pollers as started. *)
Theorem ShouldTrace_first_matching_rule (s : CentralizedStrategy X) (fb : L) (h : Store)
    (req : Request) m pre r post :
  loadManifest h (getManifest s) = Some m →
  Rules m = pre ++ r :: post →
  Forall (λ r', Match r' req = false) pre →
  Match r req = true →
  ShouldTrace Match Sample fallbackShouldTrace s fb h req
    = ((Sample r h).1, mkStrategy (xray s) (clientID s) true (manifest s), fb, (Sample r h).2).
Proof.
  intros Hm Hrules Hpre Hr. unfold ShouldTrace, getManifest in *. cbn [manifest].
  destruct (manifest s) as [i|]; [|done]. rewrite Hm. cbn.
  rewrite (firstMatch_split _ req pre r post Hrules Hpre Hr). by destruct (Sample r h).
Qed.

(** X11. When the strategy has no manifest, or no rule of the manifest in
    force matches the request, [ShouldTrace] returns the decision of the
    fallback strategy and leaves the store as it is. *)
Theorem ShouldTrace_falls_back (s : CentralizedStrategy X) (fb : L) (h : Store)
    (req : Request) :
  getManifest s = None ∨
  (∃ m, loadManifest h (getManifest s) = Some m ∧
        Forall (λ r, Match r req = false) (Rules m)) →
  ShouldTrace Match Sample fallbackShouldTrace s fb h req
    = ((fallbackShouldTrace fb req).1, mkStrategy (xray s) (clientID s) true (manifest s),
       (fallbackShouldTrace fb req).2, h).
Proof.
  unfold ShouldTrace, getManifest. cbn [manifest]. intros [Hnil|(m & Hm & Hnone)].
  - rewrite Hnil. by destruct (fallbackShouldTrace fb req).
  - destruct (manifest s) as [i|]; [|done]. rewrite Hm. cbn.
    rewrite (firstMatch_none _ req Hnone). by destruct (fallbackShouldTrace fb req).
Qed.

End Decisions.

(** The manifest of [staleStrategy]: its one rule matches and decides. *)
Lemma ShouldTrace_first_matching_rule_witness :
  (ShouldTrace Fixtures.matchAny Fixtures.sampleByRule Fixtures.localShouldTrace
     Fixtures.staleStrategy.1 tt Fixtures.staleStrategy.2 tt).1.1.1 = Some "Default".
Proof.
  rewrite (ShouldTrace_first_matching_rule Fixtures.matchAny Fixtures.sampleByRule
             Fixtures.localShouldTrace Fixtures.staleStrategy.1 tt Fixtures.staleStrategy.2 tt
             Fixtures.staleManifest [] (mkRule (Some 0%nat) "Default" 10000 "*" "*" "*" "*" "*") []
             eq_refl eq_refl (Forall_nil_2 _) eq_refl).
  reflexivity.
Defined.

(** A new strategy has an empty manifest: the fallback decides. *)
Lemma ShouldTrace_falls_back_witness :
  let '(s, h) := Fixtures.fresh (Fixtures.mockRules Fixtures.ruleTest) in
  (ShouldTrace Fixtures.matchAny Fixtures.sampleByRule Fixtures.localShouldTrace
     s tt h tt).1.1.1 = None.
Proof.
  destruct (Fixtures.fresh (Fixtures.mockRules Fixtures.ruleTest)) as [s h] eqn:Hfresh.
  rewrite (ShouldTrace_falls_back Fixtures.matchAny Fixtures.sampleByRule
             Fixtures.localShouldTrace s tt h tt); [reflexivity|].
  right. exists emptyManifest. injection Hfresh as <- <-. split; [reflexivity | constructor].
Defined.

End SamplingFacts.

(** ** The client built by [newXRaySvc] *)
Module NewXRaySvcFacts.
Import Sampling.

Lemma Run_app {R} (l k : HandlerList (R := R)) (r : R) : Run (l ++ k) r = Run k (Run l r).
Proof. unfold Run. apply fold_left_app. Qed.

(** C9. A client returned by [newXRaySvc] was made from a session over a
    configuration whose credentials are the static credentials with three
    empty strings; its [Sign] list holds the no-op handler and nothing else,
    whatever handlers the SDK had put there; and running the [Sign] list
    leaves any request as it is. *)
Theorem newXRaySvc_unsigned {R Session : Type}
    (NewSession : Config -> Session + error) (New : Session -> XRay (R := R))
    (addr : string) (x : XRay (R := R)) :
  newXRaySvc NewSession New addr = inl x →
  Credentials (dummyConfig addr) = Some (NewStaticCredentials "" "" "") ∧
  (∃ sess, NewSession (dummyConfig addr) = inl sess ∧ ClientConfig x = ClientConfig (New sess)) ∧
  Sign x = [noopSign] ∧
  ∀ r, Run (Sign x) r = r.
Proof.
  unfold newXRaySvc. destruct (NewSession (dummyConfig addr)) as [sess|err]; [|done].
  intros [= <-]. split; [done|]. split; [by exists sess|]. split; [done|]. done.
Qed.

(** A client that the SDK made with a signing handler: after [newXRaySvc]
    only the no-op is left. *)
Lemma newXRaySvc_unsigned_witness :
  newXRaySvc Fixtures.sessionOf Fixtures.clientOf "127.0.0.1:2000"
    = inl (mkXRay (dummyConfig "127.0.0.1:2000") [noopSign]) ∧
  Run (Sign (Fixtures.clientOf (dummyConfig "127.0.0.1:2000"))) ["X-Amz-Date"]
    = ["Authorization"; "X-Amz-Date"] ∧
  ∀ r : list string, Run [noopSign] r = r.
Proof.
  split; [reflexivity|]. split; [reflexivity|].
  exact (proj2 (proj2 (proj2 (newXRaySvc_unsigned Fixtures.sessionOf Fixtures.clientOf
                                "127.0.0.1:2000" _ eq_refl)))).
Defined.

End NewXRaySvcFacts.

(** ** The AWS client hooks *)
Module HooksFacts.
Import Hooks.

(** *** The unmarshal handlers *)


Lemma v2_runHook_spec hk segs :
  XrayawsV2.runHook hk segs =
  match XrayawsV2.unmarshalCtx segs with
  | None => (segs, [])
  | Some _ =>
      (XrayawsV2.clearUnmarshal segs,
       [(XrayawsV2.unmarshalSeg segs, AddError (Error hk.2));
        (XrayawsV2.unmarshalSeg segs, Close)])
  end.
Proof. destruct hk as [[] r]; reflexivity. Qed.


Lemma v1_runHook_spec hk segs :
  Xrayaws.runHook hk segs =
  match Xrayaws.unmarshalSeg segs with
  | None => (segs, [])
  | Some _ =>
      (Xrayaws.clearUnmarshal segs,
       [(Xrayaws.unmarshalSeg segs, AddError (Error hk.2));
        (Xrayaws.unmarshalSeg segs, Close)])
  end.
Proof. destruct hk as [[] r]; reflexivity. Qed.


(** *** Every unmarshal subsegment is closed at most once *)

Lemma closesOn_app p evs evs' : closesOn p (evs ++ evs') = (closesOn p evs + closesOn p evs')%nat.
Proof. unfold closesOn. by rewrite List.filter_app, length_app. Qed.

Lemma closesOn_end p q err :
  closesOn p [(q, AddError err); (q, Close)] = if bool_decide (q = p) then 1%nat else 0%nat.
Proof. unfold closesOn. cbn. by destruct (bool_decide (q = p)). Qed.

Section UnmarshalPhase.

(** What the proof needs of a package's handlers: [opened] is their guard,
    [stored] the segment they close. *)
Context {St : Type}.
Variable stored : St -> segPtr.
Variable opened : St -> bool.
Variable begin : nat -> St -> St.
Variable finish : unmarshalHook * Request -> St -> St * list event.

Hypothesis begin_opens : ∀ n s, opened (begin n s) = true ∧ stored (begin n s) = Some n.
Hypothesis finish_idle : ∀ hk s, opened s = false → finish hk s = (s, []).
Hypothesis finish_closes : ∀ hk s,
  opened s = true →
  opened (finish hk s).1 = false ∧
  (finish hk s).2 = [(stored s, AddError (Error hk.2)); (stored s, Close)].

(** The subsegments closed so far were numbered before [next] and each was
    closed once; the one the handlers would close next has not been. *)
Definition closedOnce (next : nat) (s : St) (log : list event) : Prop :=
  (∀ i, (0 < closesOn (Some i) log)%nat → (i < next)%nat) ∧
  closesOn None log = 0%nat ∧
  (∀ p, (closesOn p log ≤ 1)%nat) ∧
  (opened s = true → ∃ i, stored s = Some i ∧ (i < next)%nat ∧ closesOn (Some i) log = 0%nat).

Lemma closedOnce_begin next s log :
  closedOnce next s log → closedOnce (S next) (begin next s) log.
Proof.
  intros (Hbound & Hnil & Honce & _). destruct (begin_opens next s) as [_ Hstored].
  split; [|split; [done|split; [done|]]].
  - intros i Hi. apply Hbound in Hi. lia.
  - intros _. exists next. split; [done|]. split; [lia|].
    destruct (closesOn (Some next) log) eqn:Hc; [done|].
    assert (next < next)%nat; [apply Hbound|]; lia.
Qed.

Lemma closedOnce_finish next s log hk :
  closedOnce next s log →
  closedOnce next (finish hk s).1 (log ++ (finish hk s).2).
Proof.
  intros (Hbound & Hnil & Honce & Hopen). destruct (opened s) eqn:Hs.
  - destruct (finish_closes hk s Hs) as [Hclosed ->].
    destruct (Hopen eq_refl) as (i & Hi & Hlt & Hnot). rewrite Hi.
    split; [|split; [|split]].
    + intros j. rewrite closesOn_app, closesOn_end. case_bool_decide as Hj.
      * injection Hj as <-. done.
      * rewrite Nat.add_0_r. apply Hbound.
    + rewrite closesOn_app, closesOn_end, Hnil. by rewrite bool_decide_eq_false_2.
    + intros p. rewrite closesOn_app, closesOn_end. case_bool_decide as Hp.
      * subst p. rewrite Hnot. lia.
      * rewrite Nat.add_0_r. apply Honce.
    + by rewrite Hclosed.
  - rewrite (finish_idle hk s Hs). cbn [fst snd]. rewrite app_nil_r.
    split; [done|]. split; [done|]. split; [done|]. by rewrite Hs.
Qed.

Lemma closedOnce_steps steps next s log :
  closedOnce next s log →
  closedOnce (runStepsWith begin finish steps next s log).1.1
             (runStepsWith begin finish steps next s log).1.2
             (runStepsWith begin finish steps next s log).2.
Proof.
  revert next s log. induction steps as [|[|hk] steps IH]; intros next s log Hinv.
  - done.
  - cbn [runStepsWith]. by apply IH, closedOnce_begin.
  - cbn [runStepsWith]. pose proof (closedOnce_finish next s log hk Hinv) as Hstep.
    destruct (finish hk s) as [s' ev]. by apply IH.
Qed.

(** From a state in which no unmarshal subsegment is open, whatever the
    steps, no segment is closed twice. *)
Lemma steps_close_once steps next s p :
  opened s = false →
  (closesOn p (runStepsWith begin finish steps next s []).2 ≤ 1)%nat.
Proof.
  intros Hs. apply (closedOnce_steps steps next s []).
  split; [|split; [done|split; [by intros ?; cbn; lia|]]].
  - intros i. cbn. lia.
  - by rewrite Hs.
Qed.

End UnmarshalPhase.

(** In xrayaws-v2, over any interleaving of [beforeUnmarshalMeta],
    [afterUnmarshal] and [afterUnmarshalError] that starts with no unmarshal
    subsegment open, no segment is closed twice. *)
Lemma v2_unmarshal_segments_closed_once steps next segs p :
  XrayawsV2.unmarshalCtx segs = None →
  (closesOn p (XrayawsV2.runSteps steps next segs []).2 ≤ 1)%nat.
Proof.
  intros Hnil.
  apply (steps_close_once XrayawsV2.unmarshalSeg
           (λ s, bool_decide (XrayawsV2.unmarshalCtx s ≠ None))).
  - done.
  - intros hk s Hs. rewrite v2_runHook_spec.
    destruct (XrayawsV2.unmarshalCtx s); [done|done].
  - intros hk s Hs. rewrite v2_runHook_spec.
    destruct (XrayawsV2.unmarshalCtx s); [done|done].
  - by rewrite Hnil.
Qed.

(** The same in xrayaws. *)
Lemma v1_unmarshal_segments_closed_once steps next segs p :
  Xrayaws.unmarshalSeg segs = None →
  (closesOn p (Xrayaws.runSteps steps next segs []).2 ≤ 1)%nat.
Proof.
  intros Hnil.
  apply (steps_close_once Xrayaws.unmarshalSeg
           (λ s, bool_decide (Xrayaws.unmarshalSeg s ≠ None))).
  - done.
  - intros hk s Hs. rewrite v1_runHook_spec.
    destruct (Xrayaws.unmarshalSeg s); [done|done].
  - intros hk s Hs. rewrite v1_runHook_spec.
    destruct (Xrayaws.unmarshalSeg s); [done|done].
  - by rewrite Hnil.
Qed.

(** *** The completion handlers *)


(** On the fixtures: the error handler closes the open unmarshal
    subsegment, the handler after it finds nothing to close; and a 429 marks
    the aws subsegment as throttled. *)
Example unmarshal_error_then_unmarshal :
  (XrayawsV2.runHooks [(AfterUnmarshalError, Fixtures.throttled);
                       (AfterUnmarshal, Fixtures.throttled)]
     Fixtures.openUnmarshalV2).2
  = [(Some 4%nat, AddError (Error Fixtures.throttled)); (Some 4%nat, Close)].
Proof. reflexivity. Qed.

Example throttled_is_marked :
  (XrayawsV2.afterComplete Fixtures.throttled ∅ Fixtures.openUnmarshalV2).2
  = [(Some 4%nat, Close);
     (Some 1%nat, SetHTTPResponse 429 0);
     (Some 1%nat, SetAWS ∅);
     (Some 1%nat, SetThrottle);
     (Some 1%nat, AddError (Error Fixtures.throttled));
     (Some 1%nat, Close)].
Proof. reflexivity. Qed.

(** *** Whitelisted parameters *)



(** *** A request from start to end *)

Lemma callsOf_app l l' : callsOf (l ++ l') = callsOf l ++ callsOf l'.
Proof. unfold callsOf. apply omap_app. Qed.

Lemma callsOf_called evs : callsOf (Called <$> evs) = evs.
Proof. induction evs as [|e evs IH]; [done|]. cbn. by f_equal. Qed.

Lemma begun_app l l' : begun (l ++ l') = begun l ++ begun l'.
Proof. unfold begun. apply omap_app. Qed.

Lemma begun_called evs : begun (Called <$> evs) = [].
Proof. by induction evs as [|e evs IH]. Qed.

Lemma closed_app evs evs' : closed (evs ++ evs') = closed evs ++ closed evs'.
Proof. unfold closed. by rewrite List.filter_app, fmap_app. Qed.

Lemma submseteq_NoDup {A} (k l : list A) : k ⊆+ l → NoDup l → NoDup k.
Proof.
  intros [k' Hk]%submseteq_Permutation Hl. rewrite Hk in Hl.
  by apply NoDup_app in Hl as [? _].
Qed.

(** The segments of [l] are numbered below [next]. *)
Definition numbered (next : nat) (l : list segPtr) : Prop :=
  ∀ p, p ∈ l → ∃ i, p = Some i ∧ (i < next)%nat.

(** The stored segment of a slot, when there is one. *)
Definition slot (p : segPtr) : list segPtr :=
  match p with Some _ => [p] | None => [] end.

(** The segments that are closed or stored stay distinct, numbered and
    begun when some of them are dropped... *)
Lemma sound_same next (l k bg : list segPtr) :
  NoDup l → numbered next l → (∀ p, p ∈ l → p ∈ bg) →
  k ⊆+ l →
  NoDup k ∧ numbered next k ∧ (∀ p, p ∈ k → p ∈ bg ++ []).
Proof.
  intros Hl Hnum Hbg Hk. split; [by eapply submseteq_NoDup|]. split.
  - intros p Hp. apply Hnum. by eapply elem_of_submseteq.
  - intros p Hp. rewrite app_nil_r. apply Hbg. by eapply elem_of_submseteq.
Qed.

(** ... and when the next subsegment is begun and stored. *)
Lemma sound_fresh next (l k bg : list segPtr) :
  NoDup l → numbered next l → (∀ p, p ∈ l → p ∈ bg) →
  k ⊆+ Some next :: l →
  NoDup k ∧ numbered (S next) k ∧ (∀ p, p ∈ k → p ∈ bg ++ [Some next]).
Proof.
  intros Hl Hnum Hbg Hk. split; [|split].
  - apply (submseteq_NoDup _ _ Hk). apply NoDup_cons. split; [|done].
    intros Hin. destruct (Hnum _ Hin) as (j & [= <-] & Hj). lia.
  - intros p Hp. apply (elem_of_submseteq _ _ _ Hp) in Hk.
    apply elem_of_cons in Hk as [->|Hk].
    + exists next. split; [done | lia].
    + destruct (Hnum _ Hk) as (j & -> & Hj). exists j. split; [done | lia].
  - intros p Hp. apply (elem_of_submseteq _ _ _ Hp) in Hk. apply elem_of_app.
    apply elem_of_cons in Hk as [->|Hk]; [right; apply list_elem_of_here | left; by apply Hbg].
Qed.

(** **** xrayaws-v2 *)

(** The segments stored in a [subsegments]. *)
Definition v2_stored (segs : XrayawsV2.subsegments) : list segPtr :=
  XrayawsV2.awsSeg segs
  :: slot (XrayawsV2.marshalSeg segs) ++ slot (XrayawsV2.attemptSeg segs)
     ++ slot (XrayawsV2.unmarshalSeg segs).

(** Every slot holds the context and the segment of one subsegment; the
    segments closed so far and the segments stored are distinct segments,
    begun earlier. *)
Definition v2_sound (next : nat) (segs : XrayawsV2.subsegments) (acts : list action) : Prop :=
  XrayawsV2.marshalCtx segs = XrayawsV2.marshalSeg segs ∧
  XrayawsV2.attemptCtx segs = XrayawsV2.attemptSeg segs ∧
  XrayawsV2.unmarshalCtx segs = XrayawsV2.unmarshalSeg segs ∧
  NoDup (closed (callsOf acts) ++ v2_stored segs) ∧
  numbered next (closed (callsOf acts) ++ v2_stored segs) ∧
  (∀ p, p ∈ closed (callsOf acts) ++ v2_stored segs → p ∈ begun acts).

Lemma v2_beforeValidate_sound endpointsID ctx next :
  v2_sound (S (S next)) (XrayawsV2.beforeValidate endpointsID ctx next).1
           (XrayawsV2.beforeValidate endpointsID ctx next).2.
Proof.
  unfold v2_sound, v2_stored, XrayawsV2.beforeValidate. cbn.
  split; [done|]. split; [done|]. split; [done|]. split; [|split].
  - apply NoDup_cons. split; [|apply NoDup_singleton].
    intros Hin%list_elem_of_singleton. injection Hin. lia.
  - intros p Hp. apply elem_of_cons in Hp as [->|Hp%list_elem_of_singleton].
    + exists next. split; [done | lia].
    + subst p. exists (S next). split; [done | lia].
  - intros p Hp. done.
Qed.

Lemma v2_runHandler_sound hd next segs acts :
  v2_sound next segs acts →
  v2_sound (XrayawsV2.runHandler hd next segs).1.1 (XrayawsV2.runHandler hd next segs).1.2
           (acts ++ (XrayawsV2.runHandler hd next segs).2) ∧
  (next ≤ (XrayawsV2.runHandler hd next segs).1.1)%nat.
Proof.
  destruct segs as [actx aseg mctx mseg tctx tseg tcancel uctx useg].
  unfold v2_sound, v2_stored. cbn [XrayawsV2.marshalCtx XrayawsV2.marshalSeg
    XrayawsV2.attemptCtx XrayawsV2.attemptSeg XrayawsV2.unmarshalCtx XrayawsV2.unmarshalSeg
    XrayawsV2.awsSeg].
  intros (-> & -> & -> & Hnd & Hnum & Hbegun).
  destruct hd as [| |r| |hk].
  - unfold XrayawsV2.runHandler, XrayawsV2.afterBuild. destruct mseg as [m|]; cbn.
    + rewrite callsOf_app, begun_app, closed_app. cbn.
      split; [|lia]. split; [done|]. split; [done|]. split; [done|].
      eapply sound_same; [exact Hnd | exact Hnum | exact Hbegun | solve_submseteq].
    + cbn [slot] in *. rewrite ?app_nil_r in *. split; [|lia]. done.
  - unfold XrayawsV2.runHandler, XrayawsV2.beforeSign. cbn.
    rewrite callsOf_app, begun_app. cbn. rewrite app_nil_r.
    split; [|lia]. split; [done|]. split; [done|]. split; [done|].
    eapply sound_fresh; [exact Hnd | exact Hnum | exact Hbegun |].
    destruct tseg; cbn; solve_submseteq.
  - unfold XrayawsV2.runHandler, XrayawsV2.afterSend. destruct tseg as [t|]; cbn.
    + rewrite callsOf_app, begun_app, closed_app, callsOf_called, begun_called.
      split; [|lia]. split; [done|]. split; [done|]. split; [done|].
      eapply sound_same; [exact Hnd | exact Hnum | exact Hbegun |].
      destruct (Error r); cbn; solve_submseteq.
    + cbn [slot] in *. rewrite ?app_nil_r in *. split; [|lia]. done.
  - unfold XrayawsV2.runHandler, XrayawsV2.beforeUnmarshalMeta. cbn.
    rewrite callsOf_app, begun_app. cbn. rewrite app_nil_r.
    split; [|lia]. split; [done|]. split; [done|]. split; [done|].
    eapply sound_fresh; [exact Hnd | exact Hnum | exact Hbegun |].
    destruct useg; cbn; solve_submseteq.
  - unfold XrayawsV2.runHandler. rewrite v2_runHook_spec.
    destruct useg as [u|]; cbn.
    + rewrite callsOf_app, begun_app, closed_app. cbn.
      split; [|lia]. split; [done|]. split; [done|]. split; [done|].
      eapply sound_same; [exact Hnd | exact Hnum | exact Hbegun | solve_submseteq].
    + cbn [slot] in *. rewrite ?app_nil_r in *. split; [|lia]. done.
Qed.

Lemma v2_runHandlers_sound hds next segs acts :
  v2_sound next segs acts →
  v2_sound (XrayawsV2.runHandlers hds next segs).1.1 (XrayawsV2.runHandlers hds next segs).1.2
           (acts ++ (XrayawsV2.runHandlers hds next segs).2).
Proof.
  revert next segs acts. induction hds as [|hd hds IH]; intros next segs acts Hsound.
  - cbn. by rewrite app_nil_r.
  - cbn [XrayawsV2.runHandlers].
    destruct (v2_runHandler_sound hd next segs acts Hsound) as [Hstep _].
    destruct (XrayawsV2.runHandler hd next segs) as [[next' segs'] new]. cbn [fst snd] in *.
    specialize (IH next' segs' (acts ++ new) Hstep).
    destruct (XrayawsV2.runHandlers hds next' segs') as [[next'' segs''] new'].
    cbn [fst snd] in *. by rewrite app_assoc.
Qed.

Lemma v2_runHandlers_awsSeg hds next segs :
  XrayawsV2.awsSeg (XrayawsV2.runHandlers hds next segs).1.2 = XrayawsV2.awsSeg segs.
Proof.
  revert next segs. induction hds as [|hd hds IH]; intros next segs; [done|].
  cbn [XrayawsV2.runHandlers].
  assert (XrayawsV2.awsSeg (XrayawsV2.runHandler hd next segs).1.2 = XrayawsV2.awsSeg segs)
    as Hstep.
  { destruct hd as [| |r| |hk]; cbn.
    - unfold XrayawsV2.afterBuild. by destruct (XrayawsV2.marshalSeg segs).
    - done.
    - unfold XrayawsV2.afterSend. by destruct (XrayawsV2.attemptCtx segs).
    - done.
    - rewrite v2_runHook_spec. by destruct (XrayawsV2.unmarshalCtx segs). }
  destruct (XrayawsV2.runHandler hd next segs) as [[next' segs'] new]. cbn [fst snd] in *.
  specialize (IH next' segs').
  destruct (XrayawsV2.runHandlers hds next' segs') as [[next'' segs''] new'].
  cbn [fst snd] in *. congruence.
Qed.

(** The completion handler closes what is stored, the aws subsegment last,
    and stores nothing afterwards. *)
Lemma v2_afterComplete_closes r awsData segs :
  XrayawsV2.marshalCtx segs = XrayawsV2.marshalSeg segs →
  XrayawsV2.attemptCtx segs = XrayawsV2.attemptSeg segs →
  XrayawsV2.unmarshalCtx segs = XrayawsV2.unmarshalSeg segs →
  closed (XrayawsV2.afterComplete r awsData segs).2
    = slot (XrayawsV2.attemptSeg segs) ++ slot (XrayawsV2.marshalSeg segs)
      ++ slot (XrayawsV2.unmarshalSeg segs) ++ [XrayawsV2.awsSeg segs] ∧
  last (XrayawsV2.afterComplete r awsData segs).2 = Some (XrayawsV2.awsSeg segs, Close) ∧
  XrayawsV2.marshalSeg (XrayawsV2.afterComplete r awsData segs).1 = None ∧
  XrayawsV2.marshalCtx (XrayawsV2.afterComplete r awsData segs).1 = None ∧
  XrayawsV2.attemptSeg (XrayawsV2.afterComplete r awsData segs).1 = None ∧
  XrayawsV2.attemptCtx (XrayawsV2.afterComplete r awsData segs).1 = None ∧
  XrayawsV2.unmarshalSeg (XrayawsV2.afterComplete r awsData segs).1 = None ∧
  XrayawsV2.unmarshalCtx (XrayawsV2.afterComplete r awsData segs).1 = None.
Proof.
  destruct segs as [actx aseg mctx mseg tctx tseg tcancel uctx useg]. cbn.
  intros -> -> ->. unfold XrayawsV2.afterComplete.
  destruct tseg, mseg, useg, (HTTPResponse r); cbn -[Z.eqb];
    (destruct (XrayawsV2.errorsAsStatusCode (Error r)) as [c|];
     [destruct (c =? StatusTooManyRequests)|]); done.
Qed.

(** X12. In xrayaws-v2, over a request that runs [beforeValidate], then
    any of the handlers [afterBuild], [beforeSign], [afterSend],
    [beforeUnmarshalMeta], [afterUnmarshalError] and [afterUnmarshal] any
    number of times in any order, then the completion handler: no segment
    is closed twice, only subsegments that the hooks began are closed, the
    aws subsegment is closed and its [Close] is the last call of all, and
    afterwards no marshal, attempt or unmarshal subsegment is stored. *)
Theorem v2_request_closes_each_segment_once endpointsID ctx next hds r awsData :
  let run := XrayawsV2.runRequest endpointsID ctx next hds r awsData in
  NoDup (closed (callsOf run.2)) ∧
  (∀ p, p ∈ closed (callsOf run.2) → p ∈ begun run.2) ∧
  last (callsOf run.2) = Some (Some next, Close) ∧
  XrayawsV2.marshalSeg run.1 = None ∧ XrayawsV2.marshalCtx run.1 = None ∧
  XrayawsV2.attemptSeg run.1 = None ∧ XrayawsV2.attemptCtx run.1 = None ∧
  XrayawsV2.unmarshalSeg run.1 = None ∧ XrayawsV2.unmarshalCtx run.1 = None.
Proof.
  cbv zeta. unfold XrayawsV2.runRequest.
  pose proof (v2_beforeValidate_sound endpointsID ctx next) as Hstart.
  destruct (XrayawsV2.beforeValidate endpointsID ctx next) as [segs0 acts0] eqn:Hbv.
  cbn [fst snd] in Hstart.
  assert (XrayawsV2.awsSeg segs0 = Some next) as Haws0 by (by injection Hbv as <- _).
  pose proof (v2_runHandlers_sound hds (S (S next)) segs0 acts0 Hstart) as Hsound.
  pose proof (v2_runHandlers_awsSeg hds (S (S next)) segs0) as Haws.
  destruct (XrayawsV2.runHandlers hds (S (S next)) segs0) as [[next' segs'] acts'].
  cbn [fst snd] in *. rewrite Haws0 in Haws.
  destruct Hsound as (Hm & Ht & Hu & Hnd & _ & Hbegun).
  destruct (v2_afterComplete_closes r awsData segs' Hm Ht Hu)
    as (Hclosed & Hlast & Hrest).
  destruct (XrayawsV2.afterComplete r awsData segs') as [segs'' evs]. cbn [fst snd] in *.
  rewrite Haws in Hclosed, Hlast.
  rewrite app_assoc, callsOf_app, callsOf_called, closed_app, begun_app, begun_called,
    app_nil_r, Hclosed.
  split; [|split; [|split; [|done]]].
  - eapply submseteq_NoDup; [|exact Hnd]. unfold v2_stored. rewrite Haws. solve_submseteq.
  - intros p Hp. apply Hbegun. eapply elem_of_submseteq; [exact Hp|].
    unfold v2_stored. rewrite Haws. solve_submseteq.
  - rewrite last_app, Hlast. done.
Qed.

(** A request with one attempt that the service throttles. *)
Example v2_request_throttled :
  callsOf (XrayawsV2.runRequest "dynamodb" None 1
             [XrayawsV2.OnAfterBuild; XrayawsV2.OnBeforeSign;
              XrayawsV2.OnAfterSend Fixtures.throttled;
              XrayawsV2.OnBeforeUnmarshalMeta;
              XrayawsV2.OnUnmarshal (AfterUnmarshalError, Fixtures.throttled)]
             Fixtures.throttled ∅).2
  = [(Some 2%nat, Close);
     (Some 3%nat, SetFault); (Some 3%nat, Cancel); (Some 3%nat, Close);
     (Some 4%nat, AddError (Error Fixtures.throttled)); (Some 4%nat, Close);
     (Some 1%nat, SetHTTPResponse 429 0);
     (Some 1%nat, SetAWS ∅);
     (Some 1%nat, SetThrottle);
     (Some 1%nat, AddError (Error Fixtures.throttled));
     (Some 1%nat, Close)].
Proof. reflexivity. Qed.

(** **** xrayaws *)

Definition v1_stored (segs : Xrayaws.subsegments) : list segPtr :=
  Xrayaws.awsSeg segs
  :: slot (Xrayaws.marshalSeg segs) ++ slot (Xrayaws.attemptSeg segs)
     ++ slot (Xrayaws.unmarshalSeg segs).

Definition v1_sound (next : nat) (segs : Xrayaws.subsegments) (acts : list action) : Prop :=
  NoDup (closed (callsOf acts) ++ v1_stored segs) ∧
  numbered next (closed (callsOf acts) ++ v1_stored segs) ∧
  (∀ p, p ∈ closed (callsOf acts) ++ v1_stored segs → p ∈ begun acts).

(** [closeAll] closes what is stored, each segment once, and stores no
    segment afterwards. *)
Lemma v1_closeAll_closes segs :
  closed (Xrayaws.closeAll segs).2
    = slot (Xrayaws.attemptSeg segs) ++ slot (Xrayaws.marshalSeg segs)
      ++ slot (Xrayaws.unmarshalSeg segs) ∧
  Xrayaws.awsSeg (Xrayaws.closeAll segs).1 = Xrayaws.awsSeg segs ∧
  Xrayaws.marshalSeg (Xrayaws.closeAll segs).1 = None ∧
  Xrayaws.attemptSeg (Xrayaws.closeAll segs).1 = None ∧
  Xrayaws.unmarshalSeg (Xrayaws.closeAll segs).1 = None.
Proof.
  destruct segs as [actx aseg mctx mseg tctx tseg uctx useg]. unfold Xrayaws.closeAll.
  by destruct tseg, mseg, useg.
Qed.

Lemma v1_beforeValidate_sound serviceName ctx next :
  v1_sound (S (S next)) (Xrayaws.beforeValidate serviceName ctx next).1
           (Xrayaws.beforeValidate serviceName ctx next).2.
Proof.
  unfold v1_sound, v1_stored, Xrayaws.beforeValidate. cbn. split; [|split].
  - apply NoDup_cons. split; [|apply NoDup_singleton].
    intros Hin%list_elem_of_singleton. injection Hin. lia.
  - intros p Hp. apply elem_of_cons in Hp as [->|Hp%list_elem_of_singleton].
    + exists next. split; [done | lia].
    + subst p. exists (S next). split; [done | lia].
  - intros p Hp. done.
Qed.

Lemma v1_runHandler_sound hd next segs acts :
  v1_sound next segs acts →
  v1_sound (Xrayaws.runHandler hd next segs).1.1 (Xrayaws.runHandler hd next segs).1.2
           (acts ++ (Xrayaws.runHandler hd next segs).2) ∧
  Xrayaws.awsSeg (Xrayaws.runHandler hd next segs).1.2 = Xrayaws.awsSeg segs.
Proof.
  intros (Hnd & Hnum & Hbegun). destruct hd as [| | |hk].
  - unfold Xrayaws.runHandler, Xrayaws.afterBuild.
    destruct (v1_closeAll_closes segs) as (Hclosed & Haws & Hm & Ht & Hu).
    destruct (Xrayaws.closeAll segs) as [segs' evs]. cbn [fst snd] in *.
    split; [|done]. unfold v1_sound, v1_stored in *.
    rewrite callsOf_app, begun_app, closed_app, callsOf_called, begun_called, Hclosed,
      Haws, Hm, Ht, Hu.
    eapply sound_same; [exact Hnd | exact Hnum | exact Hbegun |]. cbn. solve_submseteq.
  - destruct segs as [actx aseg mctx mseg tctx tseg uctx useg].
    unfold v1_sound, v1_stored in *. cbn in *. split; [|done].
    rewrite callsOf_app, begun_app. cbn. rewrite app_nil_r.
    eapply sound_fresh; [exact Hnd | exact Hnum | exact Hbegun |].
    destruct tseg; cbn; solve_submseteq.
  - destruct segs as [actx aseg mctx mseg tctx tseg uctx useg].
    unfold v1_sound, v1_stored in *. cbn in *. split; [|done].
    rewrite callsOf_app, begun_app. cbn. rewrite app_nil_r.
    eapply sound_fresh; [exact Hnd | exact Hnum | exact Hbegun |].
    destruct useg; cbn; solve_submseteq.
  - unfold Xrayaws.runHandler. rewrite v1_runHook_spec.
    destruct segs as [actx aseg mctx mseg tctx tseg uctx useg].
    unfold v1_sound, v1_stored in *. cbn in *. destruct useg as [u|]; cbn.
    + split; [|done]. rewrite callsOf_app, begun_app, closed_app. cbn.
      eapply sound_same; [exact Hnd | exact Hnum | exact Hbegun | solve_submseteq].
    + cbn [slot] in *. rewrite ?app_nil_r in *. done.
Qed.

Lemma v1_runHandlers_sound hds next segs acts :
  v1_sound next segs acts →
  v1_sound (Xrayaws.runHandlers hds next segs).1.1 (Xrayaws.runHandlers hds next segs).1.2
           (acts ++ (Xrayaws.runHandlers hds next segs).2) ∧
  Xrayaws.awsSeg (Xrayaws.runHandlers hds next segs).1.2 = Xrayaws.awsSeg segs.
Proof.
  revert next segs acts. induction hds as [|hd hds IH]; intros next segs acts Hsound.
  - cbn. by rewrite app_nil_r.
  - cbn [Xrayaws.runHandlers].
    destruct (v1_runHandler_sound hd next segs acts Hsound) as [Hstep Haws].
    destruct (Xrayaws.runHandler hd next segs) as [[next' segs'] new]. cbn [fst snd] in *.
    destruct (IH next' segs' (acts ++ new) Hstep) as [Hrest Haws'].
    destruct (Xrayaws.runHandlers hds next' segs') as [[next'' segs''] new'].
    cbn [fst snd] in *. rewrite app_assoc. split; [done | congruence].
Qed.

(** X13. In xrayaws, over a request that runs [beforeValidate], then any
    of the handlers [afterBuild], [beforeSign], [beforeUnmarshalMeta],
    [afterUnmarshalError] and [afterUnmarshal] any number of times in any
    order, then the completion handler, whatever [request.IsErrorThrottle]
    answers: no segment is closed twice, only subsegments that the hooks
    began are closed, the aws subsegment is closed and its [Close] is the
    last call of all, and afterwards no marshal, attempt or unmarshal
    segment is stored. *)
Theorem v1_request_closes_each_segment_once IsErrorThrottle serviceName ctx next hds r :
  let run := Xrayaws.runRequest IsErrorThrottle serviceName ctx next hds r in
  NoDup (closed (callsOf run.2)) ∧
  (∀ p, p ∈ closed (callsOf run.2) → p ∈ begun run.2) ∧
  last (callsOf run.2) = Some (Some next, Close) ∧
  Xrayaws.marshalSeg run.1 = None ∧
  Xrayaws.attemptSeg run.1 = None ∧
  Xrayaws.unmarshalSeg run.1 = None.
Proof.
  cbv zeta. unfold Xrayaws.runRequest.
  pose proof (v1_beforeValidate_sound serviceName ctx next) as Hstart.
  destruct (Xrayaws.beforeValidate serviceName ctx next) as [segs0 acts0] eqn:Hbv.
  cbn [fst snd] in Hstart.
  assert (Xrayaws.awsSeg segs0 = Some next) as Haws0 by (by injection Hbv as <- _).
  destruct (v1_runHandlers_sound hds (S (S next)) segs0 acts0 Hstart) as [Hsound Haws].
  destruct (Xrayaws.runHandlers hds (S (S next)) segs0) as [[next' segs'] acts'].
  cbn [fst snd] in *. rewrite Haws0 in Haws.
  destruct Hsound as (Hnd & _ & Hbegun). unfold Xrayaws.afterComplete.
  destruct (v1_closeAll_closes segs') as (Hclosed & Haws' & Hm & Ht & Hu).
  destruct (Xrayaws.closeAll segs') as [segs'' evs]. cbn [fst snd] in *.
  rewrite Haws in Haws'. rewrite Haws'.
  rewrite app_assoc, callsOf_app, callsOf_called, !closed_app, begun_app, begun_called,
    app_nil_r, Hclosed.
  split; [|split; [|split; [|done]]].
  - eapply submseteq_NoDup; [|exact Hnd]. unfold v1_stored. rewrite Haws.
    destruct (IsErrorThrottle (Error r)); cbn; solve_submseteq.
  - intros p Hp. apply Hbegun. eapply elem_of_submseteq; [exact Hp|].
    unfold v1_stored. rewrite Haws.
    destruct (IsErrorThrottle (Error r)); cbn; solve_submseteq.
  - rewrite !last_app. done.
Qed.

(** *** The handlers one by one *)

(** X14. In xrayaws-v2, [afterSend] marks the attempt subsegment as a
    fault exactly when an attempt is open and the request has an error;
    when an attempt is open it cancels the client trace and closes the
    attempt once, in this order, and stores no attempt afterwards, so that a
    second [afterSend] does nothing; with no attempt open it does nothing. *)
Theorem afterSend_faults_and_closes r r' segs :
  ((XrayawsV2.attemptSeg segs, SetFault) ∈ (XrayawsV2.afterSend r segs).2
   ↔ XrayawsV2.attemptCtx segs ≠ None ∧ Error r ≠ []) ∧
  closed (XrayawsV2.afterSend r segs).2
    = match XrayawsV2.attemptCtx segs with
      | Some _ => [XrayawsV2.attemptSeg segs]
      | None => []
      end ∧
  XrayawsV2.attemptCtx (XrayawsV2.afterSend r segs).1 = None ∧
  XrayawsV2.afterSend r' (XrayawsV2.afterSend r segs).1 = ((XrayawsV2.afterSend r segs).1, []) ∧
  (XrayawsV2.attemptCtx segs = None → XrayawsV2.afterSend r segs = (segs, [])).
Proof.
  unfold XrayawsV2.afterSend.
  destruct (XrayawsV2.attemptCtx segs) as [t|] eqn:Ht, (Error r) as [|e err] eqn:He; cbn;
    rewrite ?Ht; (split; [|done]).
  all: repeat first [rewrite elem_of_app | rewrite elem_of_cons | rewrite elem_of_nil];
    intuition congruence.
Qed.

(** X15. In xrayaws, [closeAll] closes the attempt, marshal and unmarshal
    segments that are stored, each once and in this order, and no other
    segment; it stores none of them afterwards, so that a second [closeAll]
    does nothing; it leaves the aws subsegment as it is. *)
Theorem closeAll_idempotent segs :
  closed (Xrayaws.closeAll segs).2
    = slot (Xrayaws.attemptSeg segs) ++ slot (Xrayaws.marshalSeg segs)
      ++ slot (Xrayaws.unmarshalSeg segs) ∧
  Forall (λ e, e.2 = Close) (Xrayaws.closeAll segs).2 ∧
  Xrayaws.closeAll (Xrayaws.closeAll segs).1 = ((Xrayaws.closeAll segs).1, []) ∧
  Xrayaws.awsSeg (Xrayaws.closeAll segs).1 = Xrayaws.awsSeg segs ∧
  Xrayaws.awsCtx (Xrayaws.closeAll segs).1 = Xrayaws.awsCtx segs.
Proof.
  destruct segs as [actx aseg mctx mseg tctx tseg uctx useg]. unfold Xrayaws.closeAll.
  destruct tseg, mseg, useg; cbn; repeat split; repeat constructor.
Qed.

(** X16. In xrayaws-v2, the completion handler records the HTTP response
    on the aws subsegment exactly when the request has one, with its status
    and content length; the payload it passes to [SetAWS] is the payload it
    was given, with the [x-amz-id-2] header of the response under ["id_2"]
    when the header is not empty, and with nothing else changed. *)
Theorem afterComplete_records_response r awsData segs :
  (∀ status len,
      (XrayawsV2.awsSeg segs, SetHTTPResponse status len)
        ∈ (XrayawsV2.afterComplete r awsData segs).2
      ↔ ∃ resp, HTTPResponse r = Some resp ∧ status = StatusCode resp ∧
                len = ContentLength resp) ∧
  ∃ data,
    (XrayawsV2.awsSeg segs, SetAWS data) ∈ (XrayawsV2.afterComplete r awsData segs).2 ∧
    (∀ data', (XrayawsV2.awsSeg segs, SetAWS data')
                ∈ (XrayawsV2.afterComplete r awsData segs).2 → data' = data) ∧
    data = match HTTPResponse r with
           | Some resp =>
               if bool_decide (x_amz_id_2 resp = "") then awsData
               else <["id_2" := VString (x_amz_id_2 resp)]> awsData
           | None => awsData
           end.
Proof.
  destruct segs as [actx aseg mctx mseg tctx tseg tcancel uctx useg].
  unfold XrayawsV2.afterComplete. split.
  - intros status len.
    destruct tctx, mctx, uctx, (HTTPResponse r) as [resp|]; cbn -[Z.eqb];
      (destruct (XrayawsV2.errorsAsStatusCode (Error r)) as [c|];
       [destruct (c =? StatusTooManyRequests)|]);
      repeat first [rewrite elem_of_app | rewrite elem_of_cons | rewrite elem_of_nil];
      (split; [intros Hin; repeat destruct Hin as [Hin|Hin]; try discriminate Hin;
               try (injection Hin as -> ->; by eexists); done
              | intros (resp' & Hresp & -> & ->); try discriminate Hresp;
                try (injection Hresp as <-); tauto]).
  - eexists. split; [|split; [|reflexivity]].
    + destruct tctx, mctx, uctx, (HTTPResponse r) as [resp|]; cbn -[Z.eqb];
        (destruct (XrayawsV2.errorsAsStatusCode (Error r)) as [c|];
         [destruct (c =? StatusTooManyRequests)|]);
        repeat first [rewrite elem_of_app | rewrite elem_of_cons | rewrite elem_of_nil];
        tauto.
    + intros data'.
      destruct tctx, mctx, uctx, (HTTPResponse r) as [resp|]; cbn -[Z.eqb];
        (destruct (XrayawsV2.errorsAsStatusCode (Error r)) as [c|];
         [destruct (c =? StatusTooManyRequests)|]);
        repeat first [rewrite elem_of_app | rewrite elem_of_cons | rewrite elem_of_nil];
        intros Hin; repeat destruct Hin as [Hin|Hin]; try discriminate Hin;
        try (by injection Hin); done.
Qed.

(** *** Reading fields and writing the payload *)





Section Payload.

Variable MapKeys : list (value * value) -> list value.

Lemma insertDescriptor_cases desc aws v key :
  XrayawsV2.insertDescriptor MapKeys desc aws v key = aws ∨
  ∃ x, XrayawsV2.insertDescriptor MapKeys desc aws v key
       = <[XrayawsV2.renamed desc key := x]> aws.
Proof.
  unfold XrayawsV2.insertDescriptor, XrayawsV2.renamed, AWS_Set.
  destruct (XrayawsV2.Map desc), (XrayawsV2.GetKeys desc), (XrayawsV2.List desc),
    (XrayawsV2.GetCount desc), (XrayawsV2.getValue v key); cbn; eauto.
Qed.

(** X18. [insertDescriptor] writes to at most one key of the payload, the
    descriptor's [RenameTo] or, when that is empty, the field name: every
    other key reads as before, and no key of the payload is removed. *)
Theorem insertDescriptor_writes_one_key desc aws v key :
  (∀ k, XrayawsV2.insertDescriptor MapKeys desc aws v key !! k = aws !! k ∨
        k = (if bool_decide (XrayawsV2.RenameTo desc = "") then key
             else XrayawsV2.RenameTo desc)) ∧
  dom aws ⊆ dom (XrayawsV2.insertDescriptor MapKeys desc aws v key).
Proof.
  destruct (insertDescriptor_cases desc aws v key) as [->|[x ->]]; [by split; [left|]|].
  fold (XrayawsV2.renamed desc key). split.
  - intros k. destruct (decide (k = XrayawsV2.renamed desc key)) as [->|Hne]; [by right|].
    left. by rewrite lookup_insert_ne.
  - rewrite dom_insert_L. set_solver.
Qed.


End Payload.


(** *** The whitelist and the completion handler *)

Section Whitelisted.

Variable MapKeys : list (value * value) -> list value.

Lemma insertParameters_lookup v keys aws k :
  XrayawsV2.insertParameters v keys aws !! k
  = if bool_decide (k ∈ keys) then Some (XrayawsV2.getValue v k) else aws !! k.
Proof.
  revert aws. induction keys as [|key keys IH]; intros aws; [done|].
  unfold XrayawsV2.insertParameters in *. cbn [foldl]. rewrite IH. unfold AWS_Set.
  destruct (decide (k ∈ keys)) as [Hin|Hnot].
  - rewrite !bool_decide_eq_true_2; [done| by apply elem_of_cons; right | done].
  - rewrite (bool_decide_eq_false_2 (k ∈ keys)) by done.
    destruct (decide (k = key)) as [->|Hne].
    + rewrite lookup_insert_eq. rewrite bool_decide_eq_true_2; [done|apply list_elem_of_here].
    + rewrite lookup_insert_ne by done. rewrite bool_decide_eq_false_2; [done|].
      intros [?|?]%elem_of_cons; done.
Qed.

Lemma insertParameters_dom v keys aws :
  dom aws ⊆ dom (XrayawsV2.insertParameters v keys aws).
Proof.
  intros k [x Hx]%elem_of_dom. apply elem_of_dom. rewrite insertParameters_lookup.
  case_bool_decide; by eauto.
Qed.


Lemma insertDescriptors_dom v descs aws :
  dom aws ⊆ dom (XrayawsV2.insertDescriptors MapKeys v descs aws).
Proof.
  revert aws. induction descs as [|[key desc] descs IH]; intros aws; [done|].
  unfold XrayawsV2.insertDescriptors in *. cbn [foldl fst snd].
  etrans; [|apply IH].
  destruct (insertDescriptor_cases MapKeys desc aws v key) as [->|[x ->]]; [done|].
  rewrite dom_insert_L. set_solver.
Qed.

Lemma insertParameter_dom aws r whitelist :
  dom aws ⊆ dom (XrayawsV2.insertParameter MapKeys aws r whitelist).
Proof.
  unfold XrayawsV2.insertParameter.
  destruct (XrayawsV2.Services whitelist !! XrayawsV2.EndpointsID r) as [service|]; [|done].
  destruct (XrayawsV2.Operations service !! XrayawsV2.OperationName r) as [operation|];
    [|done].
  cbn zeta.
  etrans; [apply insertParameters_dom|]. etrans; [apply insertDescriptors_dom|].
  etrans; [apply insertParameters_dom|]. apply insertDescriptors_dom.
Qed.


Lemma afterComplete_SetAWS r awsData segs p data :
  (p, SetAWS data) ∈ (XrayawsV2.afterComplete r awsData segs).2 →
  p = XrayawsV2.awsSeg segs ∧
  (data = awsData ∨ data = <["id_2" := VString (default "" (x_amz_id_2 <$> HTTPResponse r))]> awsData).
Proof.
  destruct segs as [actx aseg mctx mseg tctx tseg tcancel uctx useg].
  unfold XrayawsV2.afterComplete.
  destruct tctx, mctx, uctx, (HTTPResponse r) as [resp|]; cbn -[Z.eqb];
    (destruct (XrayawsV2.errorsAsStatusCode (Error r)) as [c|];
     [destruct (c =? StatusTooManyRequests)|]);
    try case_bool_decide;
    repeat first [rewrite elem_of_app | rewrite elem_of_cons | rewrite elem_of_nil];
    intros Hin; repeat destruct Hin as [Hin|Hin]; try discriminate Hin;
    try (injection Hin as -> ->; by auto); done.
Qed.

Lemma baseData_keys r k :
  k ∈ ["region"; "operation"; "retries"; "request_id"] → k ∈ dom (XrayawsV2.baseData r).
Proof.
  unfold XrayawsV2.baseData. rewrite !dom_insert_L.
  repeat first [rewrite elem_of_cons | rewrite elem_of_nil]. set_solver.
Qed.

(** X21. The handler that [completeHandler] returns does nothing on a
    request without subsegments.  Otherwise every payload it passes to
    [SetAWS] goes to the aws subsegment and has the keys ["region"],
    ["operation"], ["retries"] and ["request_id"], whatever the whitelist
    lists; with a [nil] whitelist, or one that does not list the service of
    the request, these four hold the region, the operation name, the retry
    count and the request id of the request, and the payload has no other
    key but ["id_2"]. *)
Theorem completeHandler_payload whitelist r segs segs' evs p data :
  XrayawsV2.completeHandler MapKeys whitelist r (Some segs) = Some (segs', evs) →
  (p, SetAWS data) ∈ evs →
  XrayawsV2.completeHandler MapKeys whitelist r None = None ∧
  p = XrayawsV2.awsSeg segs ∧
  (∀ k, k ∈ ["region"; "operation"; "retries"; "request_id"] → k ∈ dom data) ∧
  ((∀ w, whitelist = Some w → XrayawsV2.Services w !! XrayawsV2.EndpointsID r = None) →
   data !! "region" = Some (VString (XrayawsV2.Region r)) ∧
   data !! "operation" = Some (VString (XrayawsV2.OperationName r)) ∧
   data !! "retries" = Some (VInt (XrayawsV2.RetryCount r)) ∧
   data !! "request_id" = Some (VString (XrayawsV2.RequestID r)) ∧
   dom data ⊆ {["region"; "operation"; "retries"; "request_id"; "id_2"]}).
Proof.
  unfold XrayawsV2.completeHandler. intros [= Hrun] Hin. split; [done|].
  apply (f_equal snd) in Hrun. cbn [snd] in Hrun. subst evs.
  apply afterComplete_SetAWS in Hin as [-> Hdata]. split; [done|].
  set (w := default (XrayawsV2.mkWhitelist ∅) whitelist) in *.
  set (awsData := XrayawsV2.insertParameter MapKeys (XrayawsV2.baseData r) r w) in *.
  split.
  - intros k Hk. assert (k ∈ dom awsData) as Hdom.
    { apply (insertParameter_dom (XrayawsV2.baseData r) r w). by apply baseData_keys. }
    destruct Hdata as [->| ->]; [done|]. rewrite dom_insert_L. set_solver.
  - intros Hnone. assert (awsData = XrayawsV2.baseData r) as Hbase.
    { subst awsData. unfold XrayawsV2.insertParameter.
      assert (XrayawsV2.Services w !! XrayawsV2.EndpointsID r = None) as ->; [|done].
      subst w. destruct whitelist as [w|]; cbn; [by apply Hnone | apply lookup_empty]. }
    rewrite Hbase in Hdata. unfold XrayawsV2.baseData in Hdata.
    destruct Hdata as [->| ->]; repeat split; try done.
    all: rewrite !dom_insert_L; set_solver.
Qed.

End Whitelisted.

(** The whitelist of [Fixtures] lists another service than the request's. *)
Lemma completeHandler_payload_witness :
  let r := XrayawsV2.mkAwsRequest Fixtures.throttled "s3" "ListBuckets" "us-west-1" 2 "REQ1"
             Fixtures.listStruct Fixtures.fooStruct in
  let run := XrayawsV2.afterComplete Fixtures.throttled (XrayawsV2.baseData r)
               Fixtures.openUnmarshalV2 in
  XrayawsV2.completeHandler Fixtures.keysInOrder (Some Fixtures.oneWhitelist) r
    (Some Fixtures.openUnmarshalV2) = Some run ∧
  (Some 1%nat, SetAWS (XrayawsV2.baseData r)) ∈ run.2 ∧
  XrayawsV2.baseData r !! "retries" = Some (VInt 2).
Proof.
  set (r := XrayawsV2.mkAwsRequest Fixtures.throttled "s3" "ListBuckets" "us-west-1" 2 "REQ1"
              Fixtures.listStruct Fixtures.fooStruct).
  set (run := XrayawsV2.afterComplete Fixtures.throttled (XrayawsV2.baseData r)
                Fixtures.openUnmarshalV2).
  assert (XrayawsV2.completeHandler Fixtures.keysInOrder (Some Fixtures.oneWhitelist) r
            (Some Fixtures.openUnmarshalV2) = Some (run.1, run.2)) as Hrun.
  { reflexivity. }
  assert ((Some 1%nat, SetAWS (XrayawsV2.baseData r)) ∈ snd run) as Hin.
  { apply list_elem_of_further, list_elem_of_further, list_elem_of_here. }
  split; [exact Hrun|]. split; [exact Hin|].
  assert (∀ w, Some Fixtures.oneWhitelist = Some w →
               XrayawsV2.Services w !! XrayawsV2.EndpointsID r = None) as Hnone.
  { intros w [= <-]. reflexivity. }
  exact (proj1 (proj2 (proj2
           (proj2 (proj2 (proj2
              (completeHandler_payload Fixtures.keysInOrder (Some Fixtures.oneWhitelist) r
                 Fixtures.openUnmarshalV2 (fst run) (snd run) (Some 1%nat)
                 (XrayawsV2.baseData r) Hrun Hin))) Hnone)))).
Defined.

End HooksFacts.

(** ** The response-writer fan-out *)
Module XrayhttpFacts.
Import Xrayhttp.

(** C10. Whatever optional interfaces the wrapped writer implements, the
    capability mask lies between [0x0] and [0xf], [wrap] returns a value and
    does not reach [panic("unreachable")], and the value implements each of
    [http.Flusher], [http.CloseNotifier], [http.Hijacker] and [http.Pusher]
    exactly when the wrapped writer does. *)
Theorem wrap_preserves_capabilities (w : writer) :
  0x0 ≤ mask w ≤ 0xf ∧
  ∃ v, wrap w = Some v ∧ ∀ i, implements v i = assert w i.
Proof.
  destruct w as [[] [] [] []]; (split; [vm_compute; split; discriminate|]);
    eexists; (split; [reflexivity|]); intros []; reflexivity.
Qed.

(** The sixteen masks are sixteen different struct types. *)
Lemma wrap_inj (w w' : writer) : wrap w = wrap w' → w = w'.
Proof.
  destruct w as [[] [] [] []], w' as [[] [] [] []]; vm_compute; congruence.
Qed.

End XrayhttpFacts.
